(** * A verified model of the FTX REST client ([rest/client.py])

    The client signs HTTP requests with HMAC-SHA256, throttles its public
    operations with the [slow_down] decorator, unwraps the exchange's
    success/error envelope and pages through the trade history.  This file
    embeds that code in Rocq and proves the properties the specification
    states about it.

    Conventions of the embedding:
    - a Python [str] is a [string] whose characters are code points below 256;
      a [bytes] value is a [string] of octets;
    - a Python [float] is an exact rational ([Q]): rounding is not modelled,
      and its [repr] is a parameter of the development;
    - a Python exception is a value of [exn]; a computation returns an
      [outcome] (a value or a raised exception) and the new [World];
    - the world carries the clock and the trace of HTTP exchanges, sleeps and
      printed lines; the exchange (the remote server) is the function
      [server], a parameter. *)

From Stdlib Require Import ZArith QArith Qround String Ascii List Lia Lqa.
From Stdlib Require Import DecimalString.
From stdpp Require Import gmap strings list.

Import ListNotations.
Open Scope string_scope.
Open Scope list_scope.
Open Scope Z_scope.

(** ** Bytes and text *)

Module Text.

Definition ord (c : ascii) : Z := Z.of_nat (nat_of_ascii c).
Definition chr (z : Z) : ascii := ascii_of_nat (Z.to_nat (z mod 256)).

Definition chars (s : string) : list ascii := list_ascii_of_string s.
Definition text (l : list ascii) : string := string_of_list_ascii l.

Definition octets (s : string) : list Z := map ord (chars s).
Definition of_octets (l : list Z) : string := text (map chr l).

(** [str(n)] and [f"{n}"] for a Python [int]. *)
Definition str_int (z : Z) : string := NilZero.string_of_int (Z.to_int z).

Definition hex_digit (z : Z) : ascii :=
  nth (Z.to_nat z) (chars "0123456789abcdef") "0"%char.
Definition HEX_digit (z : Z) : ascii :=
  nth (Z.to_nat z) (chars "0123456789ABCDEF") "0"%char.

(** [bytes.hex()]: two lower-case digits per octet. *)
Definition hex (l : list Z) : string :=
  text (flat_map (fun b => [hex_digit (b / 16 mod 16); hex_digit (b mod 16)]) l).

Definition is_lower_hex (c : ascii) : bool :=
  let n := ord c in
  ((48 <=? n) && (n <=? 57)) || ((97 <=? n) && (n <=? 102)).

(** [str.encode()]: UTF-8 of code points below 256. *)
Definition utf8 (s : string) : string :=
  of_octets (flat_map (fun c => if c <? 128 then [c]
                                else [Z.lor 192 (Z.shiftr c 6); Z.lor 128 (Z.land c 63)])
                      (octets s)).

Definition join (sep : string) (l : list string) : string :=
  match l with
  | [] => ""
  | x :: r => fold_left (fun acc y => acc +:+ sep +:+ y) r x
  end.

End Text.

(** ** SHA-256 (FIPS 180-4) and HMAC (RFC 2104), as [hmac.new(key, msg, "sha256")] computes them *)

Module SHA256.

Definition w32 (x : Z) : Z := x mod 2 ^ 32.
Definition add32 (x y : Z) : Z := w32 (x + y).
Definition rotr (n x : Z) : Z := Z.lor (Z.shiftr x n) (w32 (Z.shiftl x (32 - n))).
Definition shr (n x : Z) : Z := Z.shiftr x n.
Definition not32 (x : Z) : Z := Z.lxor x (2 ^ 32 - 1).

Definition Ch (x y z : Z) := Z.lxor (Z.land x y) (Z.land (not32 x) z).
Definition Maj (x y z : Z) := Z.lxor (Z.lxor (Z.land x y) (Z.land x z)) (Z.land y z).
Definition bsig0 x := Z.lxor (Z.lxor (rotr 2 x) (rotr 13 x)) (rotr 22 x).
Definition bsig1 x := Z.lxor (Z.lxor (rotr 6 x) (rotr 11 x)) (rotr 25 x).
Definition ssig0 x := Z.lxor (Z.lxor (rotr 7 x) (rotr 18 x)) (shr 3 x).
Definition ssig1 x := Z.lxor (Z.lxor (rotr 17 x) (rotr 19 x)) (shr 10 x).

(** The constants are cut out of roots of the first primes: the first 32
    bits of the fractional part of the [k]-th root of [p] are the low 32 bits
    of the integer part of the [k]-th root of [p * 2 ^ (32 * k)]. *)
Definition is_prime (n : Z) : bool :=
  forallb (fun d => negb (n mod d =? 0)) (map Z.of_nat (seq 2 (Z.to_nat n - 2))).

Definition primes : list Z :=
  flat_map (fun n => if is_prime n then [n] else []) (map Z.of_nat (seq 2 310)).

(** The largest [x] below [2 ^ bits] with [x ^ k <= n], bit by bit. *)
Fixpoint root (k : Z) (bits : nat) (n x : Z) : Z :=
  match bits with
  | O => x
  | S b => let y := x + 2 ^ Z.of_nat b in
           root k b n (if y ^ k <=? n then y else x)
  end.

Definition root_bits (k p : Z) : Z := w32 (root k 40 (p * 2 ^ (32 * k)) 0).

(** Cube roots of the first sixty-four primes. *)
Definition K : list Z := Eval vm_compute in map (root_bits 3) primes.

(** Square roots of the first eight primes. *)
Definition H0 : list Z := Eval vm_compute in map (root_bits 2) (firstn 8 primes).

(** Big-endian octets of [x], [n] of them. *)
Fixpoint be_bytes (n : nat) (x : Z) : list Z :=
  match n with
  | O => []
  | S n' => be_bytes n' (x / 256) ++ [x mod 256]
  end.

Definition be_word (l : list Z) : Z := fold_left (fun acc b => acc * 256 + b) l 0.

Fixpoint chunks {A} (size count : nat) (l : list A) : list (list A) :=
  match count with
  | O => []
  | S c => firstn size l :: chunks size c (skipn size l)
  end.

Definition pad (msg : list Z) : list Z :=
  let len := Z.of_nat (length msg) in
  let zeros := Z.to_nat ((55 - len) mod 64) in
  msg ++ [128] ++ repeat 0 zeros ++ be_bytes 8 (8 * len).

(** The message schedule: sixteen words of the block, extended to sixty-four. *)
Fixpoint schedule (n : nat) (ws : list Z) : list Z :=
  match n with
  | O => ws
  | S n' =>
      let t := length ws in
      let at_ (k : nat) := nth (t - k) ws 0 in
      schedule n' (ws ++ [add32 (add32 (ssig1 (at_ 2%nat)) (at_ 7%nat))
                                (add32 (ssig0 (at_ 15%nat)) (at_ 16%nat))])
  end.

Definition round (st : list Z) (kw : Z * Z) : list Z :=
  match st with
  | [a; b; c; d; e; f; g; h] =>
      let t1 := add32 (add32 (add32 h (bsig1 e)) (add32 (Ch e f g) (fst kw))) (snd kw) in
      let t2 := add32 (bsig0 a) (Maj a b c) in
      [add32 t1 t2; a; b; c; add32 d t1; e; f; g]
  | _ => st
  end.

Definition compress (h : list Z) (block : list Z) : list Z :=
  let ws := schedule 48 (map be_word (chunks 4 16 block)) in
  let st := fold_left round (combine K ws) h in
  map (fun p => add32 (fst p) (snd p)) (combine h st).

Definition digest (msg : list Z) : list Z :=
  let p := pad msg in
  let blocks := chunks 64 (length p / 64) p in
  flat_map (be_bytes 4) (fold_left compress blocks H0).

Definition block_size : nat := 64.

Definition hmac (key msg : list Z) : list Z :=
  let k := if (block_size <? length key)%nat then digest key else key in
  let k := k ++ repeat 0 (block_size - length k) in
  digest (map (Z.lxor 0x5c) k ++ digest (map (Z.lxor 0x36) k ++ msg)).

(** [hmac.new(key, msg, "sha256").hexdigest()] *)
Definition hmac_hexdigest (key msg : string) : string :=
  Text.hex (hmac (Text.octets key) (Text.octets msg)).

End SHA256.

(** ** Python values, exceptions and the operations the client applies to them *)

Module Py.

#[local] Set Warnings "-register-all".

(** What [json.loads] produces: [None], [bool], [int], [float], [str],
    [list] and [dict] with [str] keys (kept in document order). *)
Inductive value :=
| VNone
| VBool (b : bool)
| VInt (z : Z)
| VFloat (q : Q)
| VStr (s : string)
| VList (l : list value)
| VDict (kv : list (string * value)).

Inductive exn :=
| AssertionError (msg : string)
| KeyError (key : string)
| TypeError
| ValueError
| HTTPError (status : Z)
| ConnectionError
| Exception (arg : value).

Inductive outcome (A : Type) :=
| Return (a : A)
| Raise (e : exn).
Arguments Return {A} a.
Arguments Raise {A} e.

Definition obind {A B} (o : outcome A) (f : A -> outcome B) : outcome B :=
  match o with
  | Return a => f a
  | Raise e => Raise e
  end.

(** [bool(v)] *)
Definition truthy (v : value) : bool :=
  match v with
  | VNone => false
  | VBool b => b
  | VInt z => negb (z =? 0)
  | VFloat q => negb (Qeq_bool q 0)
  | VStr s => negb (String.eqb s "")
  | VList l => match l with [] => false | _ => true end
  | VDict kv => match kv with [] => false | _ => true end
  end.

Fixpoint assoc {A} (k : string) (kv : list (string * A)) : option A :=
  match kv with
  | [] => None
  | (k', v) :: r => if String.eqb k k' then Some v else assoc k r
  end.

(** [v[k]] for a [str] key: only a [dict] can be indexed by a string. *)
Definition getitem (v : value) (k : string) : outcome value :=
  match v with
  | VDict kv => match assoc k kv with
                | Some x => Return x
                | None => Raise (KeyError k)
                end
  | _ => Raise TypeError
  end.

(** The elements [for x in v] visits: a [str] yields its characters, a
    [dict] its keys; the other values are not iterable. *)
Definition iter (v : value) : outcome (list value) :=
  match v with
  | VList l => Return l
  | VStr s => Return (map (fun c => VStr (String c "")) (Text.chars s))
  | VDict kv => Return (map (fun p => VStr (fst p)) kv)
  | _ => Raise TypeError
  end.

(** [x == name] for a [str] [name]. *)
Definition eq_str (x : value) (name : string) : bool :=
  match x with
  | VStr s => String.eqb s name
  | _ => false
  end.

(** Set membership compares by [hash] and [==]: [True == 1 == 1.0], so the
    numbers share one key; a [list] or a [dict] is unhashable. *)
Inductive hkey :=
| KNone
| KNum (num : Z) (den : positive)
| KStr (s : string).

Definition hash_key (v : value) : outcome hkey :=
  match v with
  | VNone => Return KNone
  | VBool b => Return (KNum (if b then 1 else 0) 1)
  | VInt z => Return (KNum z 1)
  | VFloat q => Return (KNum (Qnum (Qred q)) (Qden (Qred q)))
  | VStr s => Return (KStr s)
  | VList _ | VDict _ => Raise TypeError
  end.

#[global] Instance hkey_eq_dec : EqDecision hkey.
Proof. solve_decision. Defined.

#[global] Instance hkey_countable : Countable hkey.
Proof.
  refine (inj_countable'
            (fun k => match k with
                      | KNone => inl ()
                      | KNum n d => inr (inl (n, d))
                      | KStr s => inr (inr s)
                      end)
            (fun x => match x with
                      | inl _ => KNone
                      | inr (inl (n, d)) => KNum n d
                      | inr (inr s) => KStr s
                      end) _).
  intros []; reflexivity.
Defined.

(** [int(x)] of a float: truncation towards zero. *)
Definition int_of_float (q : Q) : Z := Z.quot (Qnum q) (Zpos (Qden q)).

End Py.
Import Py.

(** ** The HTTP layer: [requests.Request], its prepared form and the response *)

(** A request parameter: the endpoint methods pass [None], [bool], [int],
    [float] and [str] values only. *)
Inductive scalar :=
| SNone
| SBool (b : bool)
| SInt (z : Z)
| SFloat (q : Q)
| SStr (s : string).

(** A parameter mapping; a Python [dict] keeps insertion order, and the order
    decides the encoded text. *)
Abbreviation dict := (list (string * scalar)) (only parsing).

Inductive Method := GET | POST | DELETE.

Definition method_name (m : Method) : string :=
  match m with
  | GET => "GET"
  | POST => "POST"
  | DELETE => "DELETE"
  end.

Record Request := {
  method : Method;
  url : string;
  params : option dict;      (* [params=]: sent in the query string *)
  json : option dict;        (* [json=]: sent as the JSON body *)
  headers : gmap string string
}.

Record PreparedRequest := {
  p_method : string;
  path_url : string;         (* path and query, without scheme and host *)
  body : option string;
  p_headers : gmap string string
}.

Record Response := {
  status_code : Z;
  decoded : option value     (* the body read as JSON; [None]: it is not JSON *)
}.

(** [response.json()] raises [ValueError] on a body that is not JSON. *)
Definition Response_json (r : Response) : outcome value :=
  match decoded r with
  | Some data => Return data
  | None => Raise ValueError
  end.

(** [response.raise_for_status()] raises for the 4xx and 5xx codes. *)
Definition raise_for_status (r : Response) : outcome unit :=
  if (400 <=? status_code r) && (status_code r <? 600)
  then Raise (HTTPError (status_code r))
  else Return tt.

(** *** Percent-encoding ([urllib.parse]) *)

Definition always_safe (c : Z) : bool :=
  ((65 <=? c) && (c <=? 90)) || ((97 <=? c) && (c <=? 122)) || ((48 <=? c) && (c <=? 57))
  || (c =? 95) || (c =? 46) || (c =? 45) || (c =? 126).

Definition percent (c : Z) : list ascii :=
  ["%"%char; Text.HEX_digit (c / 16 mod 16); Text.HEX_digit (c mod 16)].

(** [quote(bs, safe)] on the octets [bs]. *)
Definition quote (safe : string) (bs : string) : string :=
  Text.text (flat_map (fun c => if always_safe c || existsb (Z.eqb c) (Text.octets safe)
                                then [Text.chr c] else percent c)
                      (Text.octets bs)).

(** [quote_plus(bs)]: the space is kept by [quote] and then turned into [+]. *)
Definition quote_plus (bs : string) : string :=
  Text.text (map (fun c => if Ascii.eqb c " " then "+"%char else c)
                 (Text.chars (quote " " bs))).

(** *** [json.dumps] on a parameter mapping *)

Definition dquote : ascii := "034"%char.
Definition bslash : ascii := "092"%char.

(** The escapes of [json.dumps] with [ensure_ascii]: everything outside the
    printable ASCII range is written as a [u]-escape. *)
Definition escape_char (c : Z) : list ascii :=
  if c =? 34 then [bslash; dquote]
  else if c =? 92 then [bslash; bslash]
  else if c =? 10 then [bslash; "n"%char]
  else if c =? 13 then [bslash; "r"%char]
  else if c =? 9 then [bslash; "t"%char]
  else if c =? 8 then [bslash; "b"%char]
  else if c =? 12 then [bslash; "f"%char]
  else if (32 <=? c) && (c <=? 126) then [Text.chr c]
  else [bslash; "u"%char; "0"%char; "0"%char;
        Text.hex_digit (c / 16 mod 16); Text.hex_digit (c mod 16)].

Definition dumps_str (s : string) : string :=
  Text.text ([dquote] ++ flat_map escape_char (Text.octets s) ++ [dquote]).

(** *** Splitting the URL *)

Fixpoint drop (n : nat) (s : string) : string :=
  match n, s with
  | O, _ => s
  | S n', String _ r => drop n' r
  | S _, EmptyString => EmptyString
  end.

(** The path of [scheme://host/path].  The endpoint paths of this client hold
    no [?] and no [#], and only characters that [requests] leaves as they
    are, so the path is all that follows the host. *)
Definition url_path (url : string) : string :=
  match String.index 0 "://" url with
  | Some i =>
      let rest := drop (i + 3) url in
      match String.index 0 "/" rest with
      | Some j => drop j rest
      | None => "/"
      end
  | None => url
  end.

(** ** The world: a clock and what the client did to its environment *)

Inductive event :=
| Http (start : Q) (request : PreparedRequest) (took : Q) (reply : exn + Response)
| Sleep (secs : Q)
| Print (line : string).

Record World := {
  now : Q;                   (* seconds; [time.time()] and [time.perf_counter()] *)
  trace : list event         (* oldest first *)
}.

Definition is_http (e : event) : bool :=
  match e with Http _ _ _ _ => true | _ => false end.

(** The requests sent so far. *)
Definition https (tr : list event) : list event := filter (fun e => is_http e = true) tr.

(** The paths and queries of the requests sent so far. *)
Definition requested (tr : list event) : list string :=
  omap (fun e => match e with Http _ p _ _ => Some (path_url p) | _ => None end) tr.

(** A computation of the client: it runs in a world and leaves a new one.
    [Unfinished] stands for a loop that used up its fuel. *)
Inductive result (A : Type) :=
| Done (o : outcome A)
| Unfinished.
Arguments Done {A} o.
Arguments Unfinished {A}.

Definition M (A : Type) : Type := World -> result A * World.

Definition ret {A} (a : A) : M A := fun w => (Done (Return a), w).
Definition raise {A} (e : exn) : M A := fun w => (Done (Raise e), w).
Definition lift {A} (o : outcome A) : M A := fun w => (Done o, w).

Definition bind {A B} (m : M A) (k : A -> M B) : M B := fun w =>
  match m w with
  | (Done (Return a), w') => k a w'
  | (Done (Raise e), w') => (Done (Raise e), w')
  | (Unfinished, w') => (Unfinished, w')
  end.

Notation "'let*' x := m 'in' k" := (bind m (fun x => k))
  (at level 10, x name, m at level 100, k at level 200).

Notation "m ;; k" := (bind m (fun _ => k))
  (at level 100, k at level 200, right associativity).

Definition perf_counter : M Q := fun w => (Done (Return (now w)), w).
Definition time_time : M Q := fun w => (Done (Return (now w)), w).

(** [time.sleep(secs)]: the caller is blocked for [secs]. *)
Definition sleep (secs : Q) : M unit := fun w =>
  if Qlt_le_dec secs 0 then (Done (Raise ValueError), w)
  else (Done (Return tt), {| now := now w + secs; trace := trace w ++ [Sleep secs] |}).

Definition print (line : string) : M unit := fun w =>
  (Done (Return tt), {| now := now w; trace := trace w ++ [Print line] |}).

(** ** The throttle *)

Definition floor : Q := 0.05.

Definition slow_down {A} (func : M A) : M A :=
  let* t0 := perf_counter in
  let* value := func in
  let* t1 := perf_counter in
  let elapsed := (t1 - t0)%Q in
  (if Qlt_le_dec elapsed floor then sleep (floor - elapsed) else ret tt) ;;
  ret value.

Record FtxClient := {
  _api_key : string;
  _api_secret : string;
  _subaccount_name : option string
}.

Definition _ENDPOINT : string := "https://ftx.com/api/".

(** ** Sample data for the examples *)

Module Sample.

(** A [repr] for the floats of the examples: the decimal expansion, cut
    after six fractional digits, without trailing zeros. *)
Fixpoint strip_zeros (rev_digits : list ascii) : list ascii :=
  match rev_digits with
  | "0"%char :: (_ :: _) as rest => strip_zeros rest
  | _ => rev_digits
  end.

Definition repr (q : Q) : string :=
  let n := (Qnum q * 1000000) / Zpos (Qden q) in
  let a := Z.abs n in
  let frac := Text.chars (Text.str_int (1000000 + a mod 1000000)) in
  (if n <? 0 then "-" else "") +:+ Text.str_int (a / 1000000) +:+ "."
  +:+ Text.text (rev (strip_zeros (rev (tl frac)))).

(** A parser for the timestamps of the examples: the decimal number of
    microseconds.  It stands in for [ciso8601.parse_datetime]. *)
Fixpoint digits (acc : Z) (s : string) : option Z :=
  match s with
  | EmptyString => Some acc
  | String c r => let d := Text.ord c - 48 in
                  if (0 <=? d) && (d <=? 9) then digits (acc * 10 + d) r else None
  end.

Definition parse (s : string) : option Z :=
  match s with
  | EmptyString => None
  | _ => digits 0 s
  end.

Definition me : FtxClient :=
  {| _api_key := "key"; _api_secret := "secret"; _subaccount_name := None |}.

Definition dawn : World := {| now := 1596000000.25; trace := [] |}.

Definition ok (payload : value) : exn + Response :=
  inr {| status_code := 200;
         decoded := Some (VDict [("success", VBool true); ("result", payload)]) |}.

(** An exchange that answers every request with an empty list, in a
    millisecond. *)
Definition quiet : nat -> PreparedRequest -> Q * (exn + Response) :=
  fun _ _ => (0.001%Q, ok (VList [])).

Definition noon : Z := 1596000000000000.

Definition trade (i : Z) (price : Q) : value :=
  VDict [("id", VInt i); ("time", VStr (Text.str_int (noon - i)));
         ("price", VFloat price); ("size", VFloat 0.01)].

(** The trades [first], [first + 1], ...; trade [i] was made [i]
    microseconds before noon. *)
Definition trades (first count : nat) : list value :=
  map (fun i => trade (Z.of_nat i) 11000.5) (seq first count).

(** A full page, and a page of 37 records whose last record is the first
    record of the full page once more. *)
Definition first_page : list value := trades 1 100.
Definition second_page : list value := trades 101 36 ++ [trade 1 11000.5].

(** An exchange that answers the first request with the full page and the
    later ones with the short page, each in a millisecond. *)
Definition busy : nat -> PreparedRequest -> Q * (exn + Response) :=
  fun n _ => match n with
             | O => (0.001%Q, ok (VList first_page))
             | S _ => (0.001%Q, ok (VList second_page))
             end.

(** An exchange whose page holds the identifier 7 twice, at two prices. *)
Definition stutter : nat -> PreparedRequest -> Q * (exn + Response) :=
  fun _ _ => (0.001%Q, ok (VList [trade 7 11000.5; trade 7 11001.5])).

Definition position (future : string) (size : Q) : value :=
  VDict [("future", VStr future); ("size", VFloat size)].

Definition book : list value :=
  [position "BTC-PERP" 1.5; position "ETH-PERP" 2; position "ETH-PERP" 3].

(** An exchange that answers with three positions, two of them in the same
    future. *)
Definition holding : nat -> PreparedRequest -> Q * (exn + Response) :=
  fun _ _ => (0.001%Q, ok (VList book)).

(** An exchange that refuses every request with an error envelope. *)
Definition refusing : nat -> PreparedRequest -> Q * (exn + Response) :=
  fun _ _ => (0.001%Q,
              inr {| status_code := 401;
                     decoded := Some (VDict [("success", VBool false);
                                             ("error", VStr "Not logged in")]) |}).

(** An exchange that answers every request with the full page. *)
Definition flooded : nat -> PreparedRequest -> Q * (exn + Response) :=
  fun _ _ => (0.001%Q, ok (VList first_page)).

(** An exchange that answers the first request with the full page and then
    loses the connection. *)
Definition dropping : nat -> PreparedRequest -> Q * (exn + Response) :=
  fun n _ => match n with
             | O => (0.001%Q, ok (VList first_page))
             | S _ => (0.001%Q, inl ConnectionError)
             end.

(** A page of two records, the second with a time that cannot be read. *)
Definition garbled_page : list value :=
  [trade 101 11000.5; VDict [("id", VInt 102); ("time", VStr "yesterday")]].

(** An exchange that answers the first request with the full page and the
    later ones with the garbled page. *)
Definition garbling : nat -> PreparedRequest -> Q * (exn + Response) :=
  fun n _ => match n with
             | O => (0.001%Q, ok (VList first_page))
             | S _ => (0.001%Q, ok (VList garbled_page))
             end.



End Sample.

Section Client.

(** [repr] of a float, as [str()], [json.dumps] and the f-strings print it. *)
Variable float_repr : Q -> string.

(** [ciso8601.parse_datetime]: the instant in microseconds since the epoch,
    or [None] where it raises [ValueError]. *)
Variable parse_datetime : string -> option Z.

(** The exchange: what the [n]-th request sent gets back, and how long the
    round trip takes; [inl e] is a failure of the transport itself. *)
Variable server : nat -> PreparedRequest -> Q * (exn + Response).

(** *** Encoding the parameters *)

(** [str(v)] as [urlencode] applies it to a value; [None] has no text:
    [_encode_params] leaves such a pair out. *)
Definition query_text (v : scalar) : option string :=
  match v with
  | SNone => None
  | SBool b => Some (if b then "True" else "False")
  | SInt z => Some (Text.str_int z)
  | SFloat q => Some (float_repr q)
  | SStr s => Some (Text.utf8 s)
  end.

(** [requests]' [_encode_params]: the pairs whose value is not [None],
    through [urlencode]. *)
Definition _encode_params (data : dict) : string :=
  Text.join "&"
    (omap (fun kv => match query_text (snd kv) with
                     | Some v => Some (quote_plus (Text.utf8 (fst kv)) +:+ "=" +:+ quote_plus v)
                     | None => None
                     end) data).

Definition dumps_scalar (v : scalar) : string :=
  match v with
  | SNone => "null"
  | SBool b => if b then "true" else "false"
  | SInt z => Text.str_int z
  | SFloat q => float_repr q
  | SStr s => dumps_str s
  end.

(** [json.dumps(d)] with the default separators. *)
Definition dumps (d : dict) : string :=
  "{" +:+ Text.join ", " (map (fun kv => dumps_str (fst kv) +:+ ": " +:+ dumps_scalar (snd kv)) d)
      +:+ "}".

(** [request.prepare()].  Of the headers only those the client sets are
    kept; the [Content-*] headers of the library play no part here. *)
Definition prepare (r : Request) : PreparedRequest :=
  let query := match params r with
               | Some d => _encode_params d
               | None => ""
               end in
  {| p_method := method_name (method r);
     path_url := url_path (url r) +:+ (if String.eqb query "" then "" else "?" +:+ query);
     body := match json r with
             | Some d => Some (Text.utf8 (dumps d))
             | None => None
             end;
     p_headers := headers r |}.

(** [session.send(prepared)] *)
Definition send (p : PreparedRequest) : M Response := fun w =>
  let (took, reply) := server (length (https (trace w))) p in
  let w' := {| now := now w + took; trace := trace w ++ [Http (now w) p took reply] |} in
  match reply with
  | inr response => (Done (Return response), w')
  | inl e => (Done (Raise e), w')
  end.

(** *** The transport of [FtxClient] *)

Definition signature_payload (ts : Z) (prepared : PreparedRequest) : string :=
  Text.utf8 (Text.str_int ts +:+ p_method prepared +:+ path_url prepared)
  +:+ match body prepared with
      | Some b => b          (* the empty body is falsy, and appending it changes nothing *)
      | None => ""
      end.

Definition _sign_request (self : FtxClient) (request : Request) : M Request :=
  let* t := time_time in
  let ts := int_of_float (t * 1000) in
  let prepared := prepare request in
  let signature := SHA256.hmac_hexdigest (Text.utf8 (_api_secret self))
                                         (signature_payload ts prepared) in
  let h := <["FTX-KEY" := _api_key self]> (headers request) in
  let h := <["FTX-SIGN" := signature]> h in
  let h := <["FTX-TS" := Text.str_int ts]> h in
  let h := match _subaccount_name self with
           | Some name => if String.eqb name "" then h
                          else <["FTX-SUBACCOUNT" := quote "/" (Text.utf8 name)]> h
           | None => h
           end in
  ret {| method := method request; url := url request; params := params request;
         json := json request; headers := h |}.

Definition _process_response (response : Response) : M value :=
  match Response_json response with
  | Raise e =>
      match e with
      | ValueError => lift (raise_for_status response) ;; raise ValueError
      | _ => raise e
      end
  | Return data =>
      let* success := lift (getitem data "success") in
      if negb (truthy success)
      then let* error := lift (getitem data "error") in raise (Exception error)
      else lift (getitem data "result")
  end.

Definition _request (self : FtxClient) (method : Method) (path : string)
           (params json : option dict) : M value :=
  let request := {| method := method; url := _ENDPOINT +:+ path; params := params;
                    json := json; headers := ∅ |} in
  let* request := _sign_request self request in
  let* response := send (prepare request) in
  _process_response response.

Definition _get (self : FtxClient) (path : string) (params : option dict) : M value :=
  _request self GET path params None.

Definition _post (self : FtxClient) (path : string) (params : option dict) : M value :=
  _request self POST path None params.

Definition _delete (self : FtxClient) (path : string) (params : option dict) : M value :=
  _request self DELETE path None params.

(** *** The endpoint catalogue: every public method is wrapped by [slow_down] *)

Definition opt {A} (f : A -> scalar) (o : option A) : scalar :=
  match o with
  | Some a => f a
  | None => SNone
  end.

Definition given {A} (k : string) (f : A -> scalar) (o : option A) : dict :=
  match o with
  | Some a => [(k, f a)]
  | None => []
  end.

Definition is_none {A} (o : option A) : bool :=
  match o with
  | Some _ => false
  | None => true
  end.

Definition py_assert (c : bool) (msg : string) : M unit :=
  if c then ret tt else raise (AssertionError msg).

Definition one_of (s : string) (l : list string) : bool := existsb (String.eqb s) l.

Definition list_futures (self : FtxClient) : M value :=
  slow_down (_get self "futures" None).

Definition list_markets (self : FtxClient) : M value :=
  slow_down (_get self "markets" None).

Definition get_orderbook (self : FtxClient) (market : string) (depth : option Z) : M value :=
  slow_down (_get self ("markets/" +:+ market +:+ "/orderbook")
                  (Some [("depth", opt SInt depth)])).

Definition get_trades (self : FtxClient) (market : string) : M value :=
  slow_down (_get self ("markets/" +:+ market +:+ "/trades") None).

Definition get_account_info (self : FtxClient) : M value :=
  slow_down (_get self "account" None).

Definition get_open_orders (self : FtxClient) (market : option string) : M value :=
  slow_down (_get self "orders" (Some [("market", opt SStr market)])).

Definition get_order_history (self : FtxClient) (market side order_type : option string)
           (start_time end_time : option Q) : M value :=
  slow_down (_get self "orders/history"
                  (Some [("market", opt SStr market);
                         ("side", opt SStr side);
                         ("orderType", opt SStr order_type);
                         ("start_time", opt SFloat start_time);
                         ("end_time", opt SFloat end_time)])).

Definition get_conditional_order_history (self : FtxClient)
           (market side type order_type : option string)
           (start_time end_time : option Q) : M value :=
  slow_down (_get self "conditional_orders/history"
                  (Some [("market", opt SStr market);
                         ("side", opt SStr side);
                         ("type", opt SStr type);
                         ("orderType", opt SStr order_type);
                         ("start_time", opt SFloat start_time);
                         ("end_time", opt SFloat end_time)])).

Definition transfer_to_subaccount (self : FtxClient) (coin : string) (size : Q)
           (source destination : option string) : M value :=
  slow_down (_post self "subaccounts/transfer"
                   (Some [("coin", SStr coin);
                          ("size", SFloat size);
                          ("source", opt SStr source);
                          ("destination", opt SStr destination)])).

Definition get_historical_prices (self : FtxClient) (market : string) (resolution : Q)
           (limit start_time end_time : option Q) : M value :=
  let path := "markets/" +:+ market +:+ "/candles" in
  slow_down (_get self path
                  (Some [("resolution", SFloat resolution);
                         ("limit", opt SFloat limit);
                         ("start_time", opt SFloat start_time);
                         ("end_time", opt SFloat end_time)])).

Definition modify_order (self : FtxClient)
           (existing_order_id existing_client_order_id : option string)
           (price size : option Q) (client_order_id : option string) : M value :=
  slow_down (
    py_assert (xorb (is_none existing_order_id) (is_none existing_client_order_id))
              "Must supply exactly one ID for the order to modify" ;;
    py_assert (is_none price || is_none size) "Must modify price or size of order" ;;
    let path := match existing_order_id with
                | Some id => "orders/" +:+ id +:+ "/modify"
                | None => "orders/by_client_id/"
                          +:+ match existing_client_order_id with
                              | Some id => id
                              | None => "None"
                              end
                          +:+ "/modify"
                end in
    _post self path
          (Some (given "size" SFloat size ++ given "price" SFloat price
                 ++ given "clientId" SStr client_order_id))).

Definition modify_conditional_order (self : FtxClient) (order_id : string)
           (order_type : option string) (triggerPrice trailValue size : option Q) : M value :=
  slow_down (
    py_assert (match order_type with
               | Some t => one_of t ["stop"; "takeProfit"; "trailingStop"]
               | None => false
               end) "" ;;
    (if match order_type with Some t => String.eqb t "trailingStop" | None => false end
     then py_assert (negb (is_none trailValue) || negb (is_none size))
                    "trailingStop must modify trailValue or size of order"
     else py_assert (negb (is_none triggerPrice) || negb (is_none size))
                    "Other than trailingStop must modify triggerPrice or size of order") ;;
    let path := "conditional_orders/" +:+ order_id +:+ "/modify" in
    _post self path
          (Some (given "size" SFloat size ++ given "triggerPrice" SFloat triggerPrice
                 ++ given "trailValue" SFloat trailValue))).

Definition get_conditional_orders (self : FtxClient) (market : option string) : M value :=
  slow_down (_get self "conditional_orders" (Some [("market", opt SStr market)])).

Definition place_order (self : FtxClient) (market side : string) (price size : Q)
           (type : string) (reduce_only ioc post_only : bool)
           (client_id : option string) : M value :=
  slow_down (_post self "orders"
                   (Some [("market", SStr market);
                          ("side", SStr side);
                          ("price", SFloat price);
                          ("size", SFloat size);
                          ("type", SStr type);
                          ("reduceOnly", SBool reduce_only);
                          ("ioc", SBool ioc);
                          ("postOnly", SBool post_only);
                          ("clientId", opt SStr client_id)])).

Definition place_conditional_order (self : FtxClient) (market side : string) (size : Q)
           (order_type : string) (limit_price : option Q) (reduce_only cancel : bool)
           (triggerPrice trailValue : option Q) : M value :=
  slow_down (
    py_assert (one_of order_type ["stop"; "takeProfit"; "trailingStop"]) "" ;;
    py_assert (negb (one_of order_type ["stop"; "takeProfit"]) || negb (is_none triggerPrice))
              "Need trigger prices for stop losses and take profits" ;;
    py_assert (negb (one_of order_type ["trailingStop"])
               || (is_none triggerPrice && negb (is_none trailValue)))
              "Trailing stops need a trail value and cannot take a trigger price" ;;
    if String.eqb order_type "trailingStop"
    then _post self "conditional_orders"
               (Some [("market", SStr market);
                      ("side", SStr side);
                      ("trailValue", opt SFloat trailValue);
                      ("size", SFloat size);
                      ("reduceOnly", SBool reduce_only);
                      ("type", SStr order_type);
                      ("cancelLimitOnTrigger", SBool cancel)])
    else _post self "conditional_orders"
               (Some [("market", SStr market);
                      ("side", SStr side);
                      ("triggerPrice", opt SFloat triggerPrice);
                      ("size", SFloat size);
                      ("reduceOnly", SBool reduce_only);
                      ("type", SStr order_type);
                      ("cancelLimitOnTrigger", SBool cancel);
                      ("orderPrice", opt SFloat limit_price)])).

Definition cancel_order (self : FtxClient) (order_id : string) : M value :=
  slow_down (_delete self ("orders/" +:+ order_id) None).

Definition cancel_conditional_order (self : FtxClient) (order_id : string) : M value :=
  slow_down (_delete self ("conditional_orders/" +:+ order_id) None).

Definition cancel_orders (self : FtxClient) (market_name : option string)
           (conditional_orders limit_orders : bool) : M value :=
  slow_down (_delete self "orders"
                     (Some [("market", opt SStr market_name);
                            ("conditionalOrdersOnly", SBool conditional_orders);
                            ("limitOrdersOnly", SBool limit_orders)])).

Definition get_fills (self : FtxClient) : M value :=
  slow_down (_get self "fills" None).

Definition get_balances (self : FtxClient) : M value :=
  slow_down (_get self "wallet/balances" None).

Definition get_deposit_address (self : FtxClient) (ticker : string) : M value :=
  slow_down (_get self ("wallet/deposit_address/" +:+ ticker) None).

Definition get_positions (self : FtxClient) (show_avg_price : bool) : M value :=
  slow_down (_get self "positions" (Some [("showAvgPrice", SBool show_avg_price)])).

(** [next(filter(lambda x: x["future"] == name, positions), None)] *)
Fixpoint first_position (name : string) (positions : list value) : outcome value :=
  match positions with
  | [] => Return VNone
  | x :: rest =>
      match getitem x "future" with
      | Return future => if eq_str future name then Return x else first_position name rest
      | Raise e => Raise e
      end
  end.

Definition get_position (self : FtxClient) (name : string) (show_avg_price : bool) : M value :=
  slow_down (
    let* positions := get_positions self show_avg_price in
    let* entries := lift (iter positions) in
    lift (first_position name entries)).

(** *** The trade history aggregator *)

(** [r["id"] not in ids] *)
Definition unseen (ids : gset hkey) (r : value) : outcome bool :=
  obind (getitem r "id") (fun i =>
  obind (hash_key i) (fun k =>
  Return (bool_decide (k ∉ ids)))).

(** [[r for r in response if r["id"] not in ids]] *)
Fixpoint dedupe (ids : gset hkey) (response : list value) : outcome (list value) :=
  match response with
  | [] => Return []
  | r :: rest =>
      obind (unseen ids r) (fun keep =>
      obind (dedupe ids rest) (fun kept =>
      Return (if keep then r :: kept else kept)))
  end.

(** [{r["id"] for r in deduped_trades}] *)
Fixpoint id_set (trades : list value) : outcome (gset hkey) :=
  match trades with
  | [] => Return ∅
  | r :: rest =>
      obind (getitem r "id") (fun i =>
      obind (hash_key i) (fun k =>
      obind (id_set rest) (fun s =>
      Return ({[k]} ∪ s))))
  end.

(** [parse_datetime(t["time"])] *)
Definition trade_time (t : value) : outcome Z :=
  obind (getitem t "time") (fun x =>
  match x with
  | VStr s => match parse_datetime s with
              | Some d => Return d
              | None => Raise ValueError
              end
  | _ => Raise TypeError
  end).

Fixpoint trade_times (response : list value) : outcome (list Z) :=
  match response with
  | [] => Return []
  | t :: rest =>
      obind (trade_time t) (fun d =>
      obind (trade_times rest) (fun ds =>
      Return (d :: ds)))
  end.

(** [min(...)] of the parsed instants; it raises on an empty sequence. *)
Definition minimum (ds : list Z) : outcome Z :=
  match ds with
  | [] => Raise ValueError
  | d :: rest => Return (fold_left Z.min rest d)
  end.

(** [datetime.timestamp()]: seconds since the epoch. *)
Definition timestamp (d : Z) : Q := d # 1000000.

Definition limit : nat := 100.

Definition trades_path (market : string) : string := "markets/" +:+ market +:+ "/trades".

Definition window (start_time end_time : option Q) : dict :=
  [("end_time", opt SFloat end_time); ("start_time", opt SFloat start_time)].

(** The [while True] loop of [get_all_trades]; [fuel] bounds the number of
    pages fetched. *)
Fixpoint get_all_trades_loop (fuel : nat) (self : FtxClient) (market : string)
         (start_time end_time : option Q) (ids : gset hkey) (results : list value)
  : M (list value) :=
  match fuel with
  | O => fun w => (Unfinished, w)
  | S fuel' =>
      let* response := _get self (trades_path market) (Some (window start_time end_time)) in
      let* page := lift (iter response) in
      let* deduped_trades := lift (dedupe ids page) in
      let results := results ++ deduped_trades in
      let* fresh := lift (id_set deduped_trades) in
      let ids := ids ∪ fresh in
      print ("Adding " +:+ Text.str_int (Z.of_nat (length page)) +:+ " trades with end time "
             +:+ match end_time with
                 | Some t => float_repr t
                 | None => "None"
                 end) ;;
      if (length page =? 0)%nat then ret results
      else
        let* times := lift (trade_times page) in
        let* earliest := lift (minimum times) in
        let end_time := Some (timestamp earliest) in
        if (length page <? limit)%nat then ret results
        else get_all_trades_loop fuel' self market start_time end_time ids results
  end.

Definition get_all_trades (fuel : nat) (self : FtxClient) (market : string)
           (start_time end_time : option Q) : M (list value) :=
  slow_down (get_all_trades_loop fuel self market start_time end_time ∅ []).

(** *** Views of the code used to state its properties *)

(** What [_process_response] makes of a response. *)
Definition envelope (response : Response) : outcome value :=
  match decoded response with
  | None =>
      if (400 <=? status_code response) && (status_code response <? 600)
      then Raise (HTTPError (status_code response))
      else Raise ValueError
  | Some data =>
      obind (getitem data "success") (fun success =>
      if truthy success then getitem data "result"
      else obind (getitem data "error") (fun error => Raise (Exception error)))
  end.

Definition answer (reply : exn + Response) : outcome value :=
  match reply with
  | inl e => Raise e
  | inr response => envelope response
  end.

(** The headers [_sign_request] sets at time [t]. *)
Definition signed_headers (self : FtxClient) (request : Request) (t : Q) : gmap string string :=
  let ts := int_of_float (t * 1000) in
  let h := <["FTX-TS" := Text.str_int ts]>
             (<["FTX-SIGN" := SHA256.hmac_hexdigest (Text.utf8 (_api_secret self))
                                                     (signature_payload ts (prepare request))]>
                (<["FTX-KEY" := _api_key self]> (headers request))) in
  match _subaccount_name self with
  | Some name => if String.eqb name "" then h
                 else <["FTX-SUBACCOUNT" := quote "/" (Text.utf8 name)]> h
  | None => h
  end.

(** The request [_request] puts on the wire at time [t]. *)
Definition wire (self : FtxClient) (method : Method) (path : string)
           (params json : option dict) (t : Q) : PreparedRequest :=
  let request := {| method := method; url := _ENDPOINT +:+ path; params := params;
                    json := json; headers := ∅ |} in
  prepare {| method := method; url := _ENDPOINT +:+ path; params := params;
             json := json; headers := signed_headers self request t |}.

(** The world after one exchange. *)
Definition exchanged (p : PreparedRequest) (w : World) : World :=
  let n := length (https (trace w)) in
  {| now := now w + fst (server n p);
     trace := trace w ++ [Http (now w) p (fst (server n p)) (snd (server n p))] |}.

(** An entry that has a [future] field, which is not [name]. *)
Definition other_future (name : string) (x : value) : Prop :=
  exists f, getitem x "future" = Return f /\ f <> VStr name.

Definition absent (v : scalar) : bool :=
  match v with
  | SNone => true
  | _ => false
  end.

(** The mapping without the parameters whose value is [None]. *)
Definition strip (d : dict) : dict := filter (fun kv => absent (snd kv) = false) d.

(** The page a reply carries. *)
Definition page_of (reply : exn + Response) : outcome (list value) :=
  obind (answer reply) iter.

(** The earliest instant among the trades of a page. *)
Definition earliest (page : list value) : outcome Z :=
  obind (trade_times page) minimum.

(** What the loop does once it has the reply to a page request. *)
Inductive turn :=
| Fail (printed : bool) (e : exn)
| Last (results : list value)
| Next (end_time : Q) (ids : gset hkey) (results : list value).

Definition turn_page (ids : gset hkey) (results : list value) (reply : exn + Response) : turn :=
  match page_of reply with
  | Raise e => Fail false e
  | Return page =>
      match dedupe ids page with
      | Raise e => Fail false e
      | Return deduped_trades =>
          match id_set deduped_trades with
          | Raise e => Fail false e
          | Return fresh =>
              if (length page =? 0)%nat then Last (results ++ deduped_trades)
              else match earliest page with
                   | Raise e => Fail true e
                   | Return d =>
                       if (length page <? limit)%nat then Last (results ++ deduped_trades)
                       else Next (timestamp d) (ids ∪ fresh) (results ++ deduped_trades)
                   end
          end
      end
  end.

Definition page_line (end_time : option Q) (reply : exn + Response) : string :=
  "Adding "
  +:+ Text.str_int (Z.of_nat (match page_of reply with
                              | Return page => length page
                              | Raise _ => 0
                              end))
  +:+ " trades with end time "
  +:+ match end_time with
      | Some t => float_repr t
      | None => "None"
      end.

Definition told (line : string) (w : World) : World :=
  {| now := now w; trace := trace w ++ [Print line] |}.

(** The request for the page below the cursor [end_time], sent at [t]. *)
Definition page_request (self : FtxClient) (market : string)
           (start_time end_time : option Q) (t : Q) : PreparedRequest :=
  wire self GET (trades_path market) (Some (window start_time end_time)) None t.

(** The identifier of a trade, as the seen set keeps it. *)
Definition the_id (r : value) : outcome hkey := obind (getitem r "id") hash_key.

(** A record the loop can process: it has a hashable [id] and a [time]
    that parses. *)
Definition well_formed (r : value) : Prop :=
  (exists k, the_id r = Return k) /\ (exists d, trade_time r = Return d).

(** A reply that carries a page of at least [limit] records. *)
Definition full_page (reply : exn + Response) : Prop :=
  exists page, page_of reply = Return page /\ Forall well_formed page
               /\ (limit <= length page)%nat.

(** A reply that carries fewer than [limit] records, possibly none. *)
Definition short_page (reply : exn + Response) : Prop :=
  exists page, page_of reply = Return page /\ Forall well_formed page
               /\ (length page < limit)%nat.

Definition is_fresh (ids : gset hkey) (r : value) : bool :=
  match the_id r with
  | Return k => bool_decide (k ∉ ids)
  | Raise _ => false
  end.

(** The identifiers of the records that have one. *)
Definition identifiers (l : list value) : list hkey :=
  omap (fun r => match the_id r with Return k => Some k | Raise _ => None end) l.

Definition has_id (r : value) : Prop := exists k, the_id r = Return k.

(** The pages the replies of a run carried, oldest first. *)
Fixpoint fetched (evs : list event) : list (list value) :=
  match evs with
  | [] => []
  | Http _ _ _ reply :: later =>
      match page_of reply with
      | Return page => page :: fetched later
      | Raise _ => fetched later
      end
  | _ :: later => fetched later
  end.


(** An operation that, when it returns, has lasted the floor at least. *)
Definition lasts_the_floor {A} (op : M A) : Prop :=
  forall w v, fst (op w) = Done (Return v) -> (floor <= now (snd (op w)) - now w)%Q.

(** Requests that follow one another without a pause: each starts at the
    instant the reply to the one before arrived, and nothing sleeps. *)
Fixpoint back_to_back (t : Q) (evs : list event) : Prop :=
  match evs with
  | [] => True
  | Http start _ took _ :: later => start = t /\ back_to_back (start + took)%Q later
  | Print _ :: later => back_to_back t later
  | Sleep _ :: _ => False
  end.

Definition well_formed_b (r : value) : bool :=
  match the_id r, trade_time r with
  | Return _, Return _ => true
  | _, _ => false
  end.

(** A character that may stand in a header value as it is: a letter, a
    digit, one of [_ . - ~], the slash, or the percent sign of an escape. *)
Definition header_safe (c : ascii) : bool :=
  always_safe (Text.ord c) || Ascii.eqb c "/" || Ascii.eqb c "%".

(** The lines a run printed, oldest first. *)
Definition shown (evs : list event) : list string :=
  omap (fun e => match e with Print line => Some line | _ => None end) evs.

(** The progress lines of an aggregation that starts at the cursor
    [end_time] and gets [pages]: each line has the length of its page and
    the cursor its request was sent with. *)
Fixpoint progress_lines (end_time : option Q) (pages : list (list value)) : list string :=
  match pages with
  | [] => []
  | page :: later =>
      ("Adding " +:+ Text.str_int (Z.of_nat (length page)) +:+ " trades with end time "
       +:+ match end_time with
           | Some t => float_repr t
           | None => "None"
           end)
      :: progress_lines (match earliest page with
                         | Return d => Some (timestamp d)
                         | Raise _ => None
                         end) later
  end.

(** What the loop gathers from [pages], starting from the seen set [ids]:
    of each page, in turn, the records whose identifier was not seen before
    that page. *)
Fixpoint gathered (ids : gset hkey) (pages : list (list value)) : list value :=
  match pages with
  | [] => []
  | page :: later =>
      let kept := filter (fun r => is_fresh ids r = true) page in
      kept ++ gathered (ids ∪ list_to_set (identifiers kept)) later
  end.

(** ** Properties *)

(** *** The throttle *)

Lemma slow_down_raise {A} (func : M A) (w w1 : World) (e : exn) :
  func w = (Done (Raise e), w1) -> slow_down func w = (Done (Raise e), w1).
Proof. intros H. unfold slow_down, bind, perf_counter. rewrite H. reflexivity. Qed.

Lemma slow_down_unfinished {A} (func : M A) (w w1 : World) :
  func w = (Unfinished, w1) -> slow_down func w = (Unfinished, w1).
Proof. intros H. unfold slow_down, bind, perf_counter. rewrite H. reflexivity. Qed.

Lemma slow_down_return {A} (func : M A) (w w1 : World) (v : A) :
  func w = (Done (Return v), w1) ->
  slow_down func w =
    (Done (Return v),
     if Qlt_le_dec (now w1 - now w) floor
     then {| now := now w1 + (floor - (now w1 - now w));
             trace := trace w1 ++ [Sleep (floor - (now w1 - now w))] |}
     else w1).
Proof.
  intros H. unfold slow_down, bind, perf_counter. rewrite H. simpl.
  destruct (Qlt_le_dec (now w1 - now w) floor) as [Hlt | Hge]; [| reflexivity].
  unfold sleep. destruct (Qlt_le_dec (floor - (now w1 - now w)) 0) as [Hneg | _].
  - exfalso. lra.
  - reflexivity.
Qed.

(** C8: the wrapper runs the call first, in the world it was entered in.
    When the call returns, the wrapper measures the time the call took, and
    when that is below the floor it then sleeps for exactly the difference,
    so that the wrapper returns the floor after it was entered; a call that
    took the floor or more is returned from at once, with no sleep at all.
    When the call raises, the exception leaves the wrapper at once: nothing
    is measured and nothing sleeps, however short the call was. *)
Theorem slow_down_pads_after_the_call {A} (func : M A) (w : World) :
  let w1 := snd (func w) in
  let elapsed := (now w1 - now w)%Q in
  match fst (func w) with
  | Done (Return v) =>
      exists w2,
        slow_down func w = (Done (Return v), w2)
        /\ ((elapsed < floor)%Q ->
            trace w2 = trace w1 ++ [Sleep (floor - elapsed)]
            /\ (now w2 == now w1 + (floor - elapsed))%Q
            /\ (now w2 == now w + floor)%Q)
        /\ ((floor <= elapsed)%Q -> w2 = w1)
  | Done (Raise e) => slow_down func w = (Done (Raise e), w1)
  | Unfinished => slow_down func w = (Unfinished, w1)
  end.
Proof.
  intros w1 elapsed. subst elapsed w1.
  destruct (func w) as [[[v | e] |] w1] eqn:H; cbn [fst snd].
  - rewrite (slow_down_return func w w1 v H).
    destruct (Qlt_le_dec (now w1 - now w) floor) as [Hlt | Hge]; eexists;
      split; try reflexivity.
    + split.
      * intros _. simpl. repeat split; try reflexivity. ring.
      * intros Hge. exfalso. lra.
    + split.
      * intros Hlt. exfalso. lra.
      * reflexivity.
  - apply slow_down_raise, H.
  - apply slow_down_unfinished, H.
Qed.

(** *** The transport as pure functions of the time and of the reply *)

Lemma _process_response_pure (response : Response) (w : World) :
  _process_response response w = (Done (envelope response), w).
Proof.
  unfold _process_response, envelope, Response_json, raise_for_status.
  destruct (decoded response) as [data |].
  - unfold bind, lift. destruct (getitem data "success") as [success | e]; simpl; [| reflexivity].
    destruct (truthy success); simpl; [reflexivity |].
    destruct (getitem data "error"); reflexivity.
  - unfold bind, lift, raise.
    destruct ((400 <=? status_code response) && (status_code response <? 600)); reflexivity.
Qed.

Lemma _sign_request_pure (self : FtxClient) (request : Request) (w : World) :
  _sign_request self request w
  = (Done (Return {| method := method request; url := url request; params := params request;
                     json := json request;
                     headers := signed_headers self request (now w) |}), w).
Proof.
  unfold _sign_request, signed_headers, bind, time_time, ret.
  destruct (_subaccount_name self) as [name |]; [destruct (String.eqb name "") |]; reflexivity.
Qed.

Lemma _request_run (self : FtxClient) (method : Method) (path : string)
      (params json : option dict) (w : World) :
  let p := wire self method path params json (now w) in
  _request self method path params json w
  = (Done (answer (snd (server (length (https (trace w))) p))), exchanged p w).
Proof.
  intros p. unfold _request, bind. rewrite _sign_request_pure.
  change (prepare _) with p. unfold send, exchanged.
  destruct (server (length (https (trace w))) p) as [took reply]. simpl.
  destruct reply as [e | response]; [reflexivity |].
  rewrite _process_response_pure. reflexivity.
Qed.

(** *** The envelope *)

(** C6: a decoded envelope whose [success] is true yields its [result],
    and nothing else of the envelope; one whose [success] is false raises
    an exception that carries the server's [error] string; a body that is
    not JSON raises the HTTP error of the status code when that is a 4xx or
    5xx code and the decoding error otherwise, never the exception of the
    envelope; and the world is left as it was. *)
Theorem _process_response_unwraps (response : Response) (w : World) :
  (forall kv payload,
      decoded response = Some (VDict kv) ->
      assoc "success" kv = Some (VBool true) ->
      assoc "result" kv = Some payload ->
      _process_response response w = (Done (Return payload), w))
  /\ (forall kv msg,
      decoded response = Some (VDict kv) ->
      assoc "success" kv = Some (VBool false) ->
      assoc "error" kv = Some (VStr msg) ->
      _process_response response w = (Done (Raise (Exception (VStr msg))), w))
  /\ (decoded response = None ->
      _process_response response w
      = (Done (Raise (if (400 <=? status_code response) && (status_code response <? 600)
                      then HTTPError (status_code response) else ValueError)), w)
      /\ forall arg, _process_response response w <> (Done (Raise (Exception arg)), w)).
Proof.
  rewrite _process_response_pure. unfold envelope. repeat split.
  - intros kv payload Hd Hs Hr. rewrite Hd. simpl. rewrite Hs. simpl. rewrite Hr. reflexivity.
  - intros kv msg Hd Hs He. rewrite Hd. simpl. rewrite Hs. simpl. rewrite He. reflexivity.
  - rewrite H. destruct ((400 <=? status_code response) && (status_code response <? 600)); reflexivity.
  - rewrite H. intros arg.
    destruct ((400 <=? status_code response) && (status_code response <? 600)); congruence.
Qed.

(** *** Validation *)

(** C9: with both identifiers given, or with neither, [modify_order] raises
    the assertion error of its first check and leaves the world untouched:
    no request is built, signed or sent, and the throttle does not sleep. *)
Theorem modify_order_needs_exactly_one_id (self : FtxClient)
        (existing_order_id existing_client_order_id : option string)
        (price size : option Q) (client_order_id : option string) (w : World) :
  is_none existing_order_id = is_none existing_client_order_id ->
  modify_order self existing_order_id existing_client_order_id price size client_order_id w
  = (Done (Raise (AssertionError "Must supply exactly one ID for the order to modify")), w).
Proof.
  intros Hboth. unfold modify_order. apply slow_down_raise.
  unfold bind, py_assert. rewrite Hboth.
  destruct (is_none existing_client_order_id); reflexivity.
Qed.

(** *** Looking up one position *)

Lemma eq_str_true (x : value) (name : string) : eq_str x name = true <-> x = VStr name.
Proof.
  destruct x; simpl; try (split; [discriminate | intros H; discriminate H]).
  rewrite String.eqb_eq. split; [intros -> | intros [= ->]]; reflexivity.
Qed.

Lemma eq_str_false (x : value) (name : string) : eq_str x name = false <-> x <> VStr name.
Proof.
  rewrite <- eq_str_true. destruct (eq_str x name); split; intros H; congruence.
Qed.

Lemma first_position_skips (name : string) (before rest : list value) :
  Forall (other_future name) before ->
  first_position name (before ++ rest) = first_position name rest.
Proof.
  induction 1 as [| x before [f [Hf Hne]] _ IH]; [reflexivity |].
  simpl. rewrite Hf. apply eq_str_false in Hne. rewrite Hne. exact IH.
Qed.

Lemma get_position_run (self : FtxClient) (name : string) (show_avg_price : bool)
      (w w1 : World) (entries : list value) (x : value) :
  get_positions self show_avg_price w = (Done (Return (VList entries)), w1) ->
  first_position name entries = Return x ->
  exists w2, get_position self name show_avg_price w = (Done (Return x), w2).
Proof.
  intros Hlist Hfirst. unfold get_position. eexists. apply slow_down_return.
  unfold bind, lift. rewrite Hlist. simpl. rewrite Hfirst. reflexivity.
Qed.

(** C10: when the position list holds no entry whose [future] is the name
    asked for, [get_position] returns [None] and does not raise; when some
    entry matches, it returns the first such entry in list order. *)
Theorem get_position_first_or_none (self : FtxClient) (name : string)
        (show_avg_price : bool) (w w1 : World) (entries : list value) :
  get_positions self show_avg_price w = (Done (Return (VList entries)), w1) ->
  (Forall (other_future name) entries ->
   exists w2, get_position self name show_avg_price w = (Done (Return VNone), w2))
  /\ (forall before x after,
         entries = before ++ x :: after ->
         Forall (other_future name) before ->
         getitem x "future" = Return (VStr name) ->
         exists w2, get_position self name show_avg_price w = (Done (Return x), w2)).
Proof.
  intros Hlist. split.
  - intros Hnone. apply (get_position_run self name show_avg_price w w1 entries); [exact Hlist |].
    rewrite <- (app_nil_r entries). rewrite first_position_skips by exact Hnone. reflexivity.
  - intros before x after -> Hbefore Hx.
    apply (get_position_run self name show_avg_price w w1 (before ++ x :: after)); [exact Hlist |].
    rewrite first_position_skips by exact Hbefore. simpl. rewrite Hx.
    simpl. rewrite String.eqb_refl. reflexivity.
Qed.

(** *** The signature *)

Lemma url_path_endpoint (path : string) : url_path (_ENDPOINT +:+ path) = "/api/" +:+ path.
Proof. reflexivity. Qed.

Lemma text_app (a b : list ascii) : Text.text (a ++ b) = Text.text a +:+ Text.text b.
Proof.
  unfold Text.text. induction a as [| c a IH]; simpl; [reflexivity |].
  rewrite IH. reflexivity.
Qed.

Lemma chars_app (a b : string) : Text.chars (a +:+ b) = Text.chars a ++ Text.chars b.
Proof.
  unfold Text.chars. induction a as [| c a IH]; simpl; [reflexivity |].
  rewrite IH. reflexivity.
Qed.

Lemma utf8_app (a b : string) : Text.utf8 (a +:+ b) = Text.utf8 a +:+ Text.utf8 b.
Proof.
  unfold Text.utf8, Text.of_octets, Text.octets.
  rewrite chars_app, map_app, flat_map_app, map_app, text_app. reflexivity.
Qed.

Lemma hex_digit_lower (z : Z) : 0 <= z < 16 -> Text.is_lower_hex (Text.hex_digit z) = true.
Proof.
  intros Hz.
  assert (Hcases : z = 0 \/ z = 1 \/ z = 2 \/ z = 3 \/ z = 4 \/ z = 5 \/ z = 6 \/ z = 7
                   \/ z = 8 \/ z = 9 \/ z = 10 \/ z = 11 \/ z = 12 \/ z = 13 \/ z = 14
                   \/ z = 15) by lia.
  repeat (destruct Hcases as [-> | Hcases]; [reflexivity |]). subst z. reflexivity.
Qed.

Lemma hex_lower (l : list Z) :
  Forall (fun c => Text.is_lower_hex c = true) (Text.chars (Text.hex l)).
Proof.
  unfold Text.hex, Text.chars, Text.text. rewrite list_ascii_of_string_of_list_ascii.
  induction l as [| b l IH]; simpl; [constructor |].
  constructor; [| constructor; [| exact IH]]; apply hex_digit_lower; apply Z.mod_pos_bound; lia.
Qed.

Lemma hex_length (l : list Z) : String.length (Text.hex l) = (2 * length l)%nat.
Proof.
  unfold Text.hex, Text.text. rewrite <- (list_ascii_of_string_of_list_ascii (flat_map _ l)) at 1.
  rewrite string_of_list_ascii_of_string.
  induction l as [| b l IH]; simpl; [reflexivity |].
  unfold Text.text in IH. simpl in IH. rewrite IH. lia.
Qed.

Lemma append_assoc (a b c : string) : (a +:+ b) +:+ c = a +:+ b +:+ c.
Proof.
  induction a as [| x a IH]; [reflexivity |].
  change (String x ((a +:+ b) +:+ c) = String x (a +:+ b +:+ c)). rewrite IH. reflexivity.
Qed.

Lemma round_length (st : list Z) (kw : Z * Z) :
  length st = 8%nat -> length (SHA256.round st kw) = 8%nat.
Proof.
  destruct st as [| a [| b [| c [| d [| e [| f [| g [| h [| i st]]]]]]]]]; simpl; intros H;
    solve [discriminate H | reflexivity].
Qed.

Lemma rounds_length (kws : list (Z * Z)) (st : list Z) :
  length st = 8%nat -> length (fold_left SHA256.round kws st) = 8%nat.
Proof.
  revert st. induction kws as [| kw kws IH]; intros st H; simpl; [exact H |].
  apply IH, round_length, H.
Qed.

Lemma compress_length (h block : list Z) :
  length h = 8%nat -> length (SHA256.compress h block) = 8%nat.
Proof.
  intros H. unfold SHA256.compress. rewrite length_map, length_combine, rounds_length by exact H.
  rewrite H. reflexivity.
Qed.

Lemma be_bytes_length (n : nat) (x : Z) : length (SHA256.be_bytes n x) = n.
Proof.
  revert x. induction n as [| n IH]; intros x; simpl; [reflexivity |].
  rewrite length_app, IH. simpl. lia.
Qed.

Lemma digest_length (msg : list Z) : length (SHA256.digest msg) = 32%nat.
Proof.
  unfold SHA256.digest.
  assert (H : forall blocks h, length h = 8%nat ->
                               length (fold_left SHA256.compress blocks h) = 8%nat).
  { induction blocks as [| b blocks IH]; intros h Hh; simpl; [exact Hh |].
    apply IH, compress_length, Hh. }
  rewrite (flat_map_constant_length (c := 4)).
  - rewrite H by reflexivity. reflexivity.
  - intros x _. apply be_bytes_length.
Qed.

Lemma hmac_hexdigest_length (key msg : string) :
  String.length (SHA256.hmac_hexdigest key msg) = 64%nat.
Proof.
  unfold SHA256.hmac_hexdigest, SHA256.hmac. rewrite hex_length, digest_length. reflexivity.
Qed.

Lemma signed_headers_ts (self : FtxClient) (request : Request) (t : Q) :
  signed_headers self request t !! "FTX-TS" = Some (Text.str_int (int_of_float (t * 1000))).
Proof.
  unfold signed_headers.
  destruct (_subaccount_name self) as [name |]; [destruct (String.eqb name "") |];
    repeat (rewrite lookup_insert_ne by discriminate); apply lookup_insert_eq.
Qed.

Lemma signed_headers_sign (self : FtxClient) (request : Request) (t : Q) :
  signed_headers self request t !! "FTX-SIGN"
  = Some (SHA256.hmac_hexdigest (Text.utf8 (_api_secret self))
            (signature_payload (int_of_float (t * 1000)) (prepare request))).
Proof.
  unfold signed_headers.
  destruct (_subaccount_name self) as [name |]; [destruct (String.eqb name "") |];
    repeat (rewrite lookup_insert_ne by discriminate); apply lookup_insert_eq.
Qed.

(** C7: the request that goes on the wire carries, as its timestamp header,
    the decimal text of the milliseconds read when it was signed, and, as
    its signature header, the HMAC-SHA256 under the octets of the secret of
    these octets, one after the other with nothing between them: that same
    decimal text, the upper-case method, the path with its query string,
    and the body when there is one.  The signature is sixty-four lower-case
    hexadecimal digits. *)
Theorem signature_covers_the_request (self : FtxClient) (method : Method) (path : string)
        (params json : option dict) (w : World) :
  let ts := int_of_float (now w * 1000) in
  exists p took reply signature,
    trace (snd (_request self method path params json w))
    = trace w ++ [Http (now w) p took reply]
    /\ p_method p = method_name method
    /\ path_url p
       = "/api/" +:+ path
         +:+ match params with
             | Some d => if String.eqb (_encode_params d) "" then ""
                         else "?" +:+ _encode_params d
             | None => ""
             end
    /\ body p = match json with
                | Some d => Some (Text.utf8 (dumps d))
                | None => None
                end
    /\ p_headers p !! "FTX-TS" = Some (Text.str_int ts)
    /\ p_headers p !! "FTX-SIGN" = Some signature
    /\ signature
       = Text.hex (SHA256.hmac (Text.octets (Text.utf8 (_api_secret self)))
                     (Text.octets (Text.utf8 (Text.str_int ts) +:+ Text.utf8 (p_method p)
                                   +:+ Text.utf8 (path_url p)
                                   +:+ match body p with
                                       | Some b => b
                                       | None => ""
                                       end)))
    /\ String.length signature = 64%nat
    /\ Forall (fun c => Text.is_lower_hex c = true) (Text.chars signature).
Proof.
  intros ts. rewrite _request_run. simpl.
  eexists _, _, _, _. split; [reflexivity |].
  split; [reflexivity |].
  split; [destruct params; reflexivity |].
  split; [reflexivity |].
  split; [apply signed_headers_ts |].
  split; [apply signed_headers_sign |].
  split; [| split; [apply hmac_hexdigest_length | apply hex_lower]].
  unfold SHA256.hmac_hexdigest, signature_payload. rewrite !utf8_app, !append_assoc.
  reflexivity.
Qed.

(** *** Parameters whose value is [None] *)

Lemma _encode_params_strip (d : dict) : _encode_params d = _encode_params (strip d).
Proof.
  unfold _encode_params. f_equal. unfold strip.
  induction d as [| [k v] d IH]; [reflexivity |].
  rewrite filter_cons.
  destruct v; simpl; [exact IH | apply (f_equal (cons _)); exact IH ..].
Qed.

Lemma wire_get_strip (self : FtxClient) (path : string) (d : dict) (t : Q) :
  wire self GET path (Some d) None t = wire self GET path (Some (strip d)) None t.
Proof.
  unfold wire, prepare, signed_headers, signature_payload, prepare. simpl.
  rewrite <- !_encode_params_strip. reflexivity.
Qed.

Lemma append_empty_r (a : string) : a +:+ "" = a.
Proof.
  induction a as [| x a IH]; [reflexivity |].
  change (String x (a +:+ "") = String x a). rewrite IH. reflexivity.
Qed.

Lemma wire_body_request (self : FtxClient) (method : Method) (path : string)
      (d : dict) (t : Q) :
  let p := wire self method path None (Some d) t in
  path_url p = "/api/" +:+ path
  /\ body p = Some (Text.utf8 (dumps d))
  /\ p_headers p !! "FTX-SIGN"
     = Some (SHA256.hmac_hexdigest (Text.utf8 (_api_secret self))
               (Text.utf8 (Text.str_int (int_of_float (t * 1000)) +:+ method_name method
                           +:+ "/api/" +:+ path)
                +:+ Text.utf8 (dumps d))).
Proof.
  assert (Hpath : forall h, path_url (prepare {| method := method; url := _ENDPOINT +:+ path;
                                                 params := None; json := Some d;
                                                 headers := h |}) = "/api/" +:+ path).
  { intros h. unfold prepare. simpl. rewrite url_path_endpoint.
    change (("/api/" +:+ path) +:+ "" = "/api/" +:+ path). apply append_empty_r. }
  unfold wire. split; [apply (Hpath _) |]. split; [reflexivity |].
  change (p_headers (prepare ?r)) with (headers r). cbn [headers].
  rewrite signed_headers_sign. unfold signature_payload.
  rewrite (Hpath _). reflexivity.
Qed.

(** C1, as the code has it: on a GET the parameters whose value is [None]
    are dropped before the request is encoded and signed, so that what is
    sent, signed and answered is what the mapping without them gives; on a
    POST and on a DELETE the mapping goes into the JSON body as it is, a
    [None] value being written by [json.dumps], and the signature covers
    that body. *)
Theorem absent_parameters (self : FtxClient) (path : string) (d : dict) (w : World) :
  let ts := Text.str_int (int_of_float (now w * 1000)) in
  _get self path (Some d) w = _get self path (Some (strip d)) w
  /\ (exists p took reply,
         trace (snd (_get self path (Some d) w)) = trace w ++ [Http (now w) p took reply]
         /\ body p = None
         /\ path_url p = "/api/" +:+ path
                         +:+ (if String.eqb (_encode_params (strip d)) "" then ""
                              else "?" +:+ _encode_params (strip d)))
  /\ (exists p took reply,
         trace (snd (_post self path (Some d) w)) = trace w ++ [Http (now w) p took reply]
         /\ path_url p = "/api/" +:+ path
         /\ body p = Some (Text.utf8 (dumps d))
         /\ p_headers p !! "FTX-SIGN"
            = Some (SHA256.hmac_hexdigest (Text.utf8 (_api_secret self))
                      (Text.utf8 (ts +:+ "POST" +:+ "/api/" +:+ path)
                       +:+ Text.utf8 (dumps d))))
  /\ (exists p took reply,
         trace (snd (_delete self path (Some d) w)) = trace w ++ [Http (now w) p took reply]
         /\ path_url p = "/api/" +:+ path
         /\ body p = Some (Text.utf8 (dumps d))
         /\ p_headers p !! "FTX-SIGN"
            = Some (SHA256.hmac_hexdigest (Text.utf8 (_api_secret self))
                      (Text.utf8 (ts +:+ "DELETE" +:+ "/api/" +:+ path)
                       +:+ Text.utf8 (dumps d)))).
Proof.
  intros ts. unfold _get, _post, _delete. rewrite !_request_run. split; [| split; [| split]].
  - rewrite wire_get_strip. reflexivity.
  - eexists _, _, _. split; [reflexivity |]. split; [reflexivity |].
    simpl. rewrite <- _encode_params_strip. reflexivity.
  - eexists _, _, _. split; [reflexivity |]. apply wire_body_request.
  - eexists _, _, _. split; [reflexivity |]. apply wire_body_request.
Qed.

(** *** One turn of the aggregation loop *)

Lemma loop_turn (fuel : nat) (self : FtxClient) (market : string)
      (start_time end_time : option Q) (ids : gset hkey) (results : list value) (w : World) :
  let p := page_request self market start_time end_time (now w) in
  let reply := snd (server (length (https (trace w))) p) in
  let w1 := exchanged p w in
  let w2 := told (page_line end_time reply) w1 in
  get_all_trades_loop (S fuel) self market start_time end_time ids results w
  = match turn_page ids results reply with
    | Fail false e => (Done (Raise e), w1)
    | Fail true e => (Done (Raise e), w2)
    | Last all => (Done (Return all), w2)
    | Next cursor seen all =>
        get_all_trades_loop fuel self market start_time (Some cursor) seen all w2
    end.
Proof.
  intros p reply w1 w2. subst w2.
  unfold turn_page, page_line, page_of, earliest.
  cbn [get_all_trades_loop]. unfold _get, bind at 1. rewrite _request_run.
  fold (page_request self market start_time end_time (now w)). fold p. fold reply. fold w1.
  destruct (answer reply) as [response | e]; [| reflexivity].
  cbn [obind]. unfold bind at 1, lift at 1.
  destruct (iter response) as [page | e]; [| reflexivity].
  unfold bind at 1, lift at 1.
  destruct (dedupe ids page) as [deduped_trades | e]; [| reflexivity].
  unfold bind at 1, lift at 1.
  destruct (id_set deduped_trades) as [fresh | e]; [| reflexivity].
  unfold bind at 1, print at 1. fold (told (page_line end_time reply) w1).
  destruct (length page =? 0)%nat; [reflexivity |].
  unfold bind at 1, lift at 1.
  destruct (trade_times page) as [times | e]; [| reflexivity].
  cbn [obind]. unfold bind at 1, lift at 1.
  destruct (minimum times) as [d | e]; [| reflexivity].
  destruct (length page <? limit)%nat; reflexivity.
Qed.

(** *** Pages whose records are well formed *)

Lemma obind_the_id {A} (r : value) (f : hkey -> outcome A) :
  obind (getitem r "id") (fun i => obind (hash_key i) f) = obind (the_id r) f.
Proof. unfold the_id. destruct (getitem r "id"); reflexivity. Qed.

Lemma unseen_the_id (ids : gset hkey) (r : value) :
  unseen ids r = obind (the_id r) (fun k => Return (bool_decide (k ∉ ids))).
Proof. apply obind_the_id. Qed.

Lemma dedupe_well_formed (ids : gset hkey) (page : list value) :
  Forall well_formed page ->
  dedupe ids page = Return (filter (fun r => is_fresh ids r = true) page).
Proof.
  induction 1 as [| r page [[k Hk] _] _ IH]; [reflexivity |].
  assert (Hf : is_fresh ids r = bool_decide (k ∉ ids))
    by (unfold is_fresh; rewrite Hk; reflexivity).
  cbn [dedupe]. rewrite unseen_the_id, Hk, IH. cbn [obind].
  rewrite filter_cons. rewrite <- Hf.
  destruct (decide (is_fresh ids r = true)) as [Hyes | Hno].
  - rewrite Hyes. reflexivity.
  - apply not_true_is_false in Hno. rewrite Hno. reflexivity.
Qed.

Lemma id_set_has_ids (l : list value) :
  Forall (fun r => exists k, the_id r = Return k) l ->
  id_set l = Return (list_to_set (identifiers l)).
Proof.
  induction 1 as [| r l [k Hk] _ IH]; [reflexivity |].
  cbn [id_set]. rewrite obind_the_id, Hk. cbn [obind]. rewrite IH. cbn [obind].
  unfold identifiers. cbn [omap list_omap]. rewrite Hk. reflexivity.
Qed.

Lemma trade_times_well_formed (page : list value) :
  Forall well_formed page ->
  exists ds, trade_times page = Return ds /\ length ds = length page.
Proof.
  induction 1 as [| r page [_ [d Hd]] _ [ds [IH Hlen]]]; [exists []; split; reflexivity |].
  exists (d :: ds). cbn [trade_times]. rewrite Hd, IH. split; [reflexivity |].
  simpl. rewrite Hlen. reflexivity.
Qed.

Lemma earliest_well_formed (page : list value) :
  Forall well_formed page -> page <> [] -> exists d, earliest page = Return d.
Proof.
  intros Hwf Hne. destruct (trade_times_well_formed page Hwf) as [ds [Hds Hlen]].
  unfold earliest. rewrite Hds. destruct ds as [| d ds].
  - destruct page; [congruence | discriminate Hlen].
  - eexists. reflexivity.
Qed.

Lemma Forall_filter_well_formed (ids : gset hkey) (page : list value) :
  Forall well_formed page ->
  Forall (fun r => exists k, the_id r = Return k) (filter (fun r => is_fresh ids r = true) page).
Proof.
  intros Hwf. apply Forall_forall. intros r Hr.
  rewrite list_elem_of_filter in Hr.
  destruct Hr as [_ Hr]. rewrite Forall_forall in Hwf. destruct (Hwf r Hr) as [Hk _]. exact Hk.
Qed.

Lemma turn_page_full (ids : gset hkey) (results : list value) (reply : exn + Response) :
  full_page reply -> exists cursor seen all, turn_page ids results reply = Next cursor seen all.
Proof.
  intros [page [Hpage [Hwf Hlen]]]. unfold turn_page. rewrite Hpage.
  rewrite dedupe_well_formed by exact Hwf.
  rewrite id_set_has_ids by (apply Forall_filter_well_formed, Hwf).
  unfold limit in *.
  destruct (length page =? 0)%nat eqn:Hzero; [apply Nat.eqb_eq in Hzero; lia |].
  destruct (earliest_well_formed page Hwf) as [d Hd]; [intros ->; simpl in Hlen; lia |].
  rewrite Hd. destruct (length page <? 100)%nat eqn:Hshort; [apply Nat.ltb_lt in Hshort; lia |].
  eexists _, _, _. reflexivity.
Qed.

Lemma turn_page_short (ids : gset hkey) (results : list value) (reply : exn + Response) :
  short_page reply -> exists all, turn_page ids results reply = Last all.
Proof.
  intros [page [Hpage [Hwf Hlen]]]. unfold turn_page. rewrite Hpage.
  rewrite dedupe_well_formed by exact Hwf.
  rewrite id_set_has_ids by (apply Forall_filter_well_formed, Hwf).
  destruct (length page =? 0)%nat eqn:Hzero; [eexists; reflexivity |].
  destruct (earliest_well_formed page Hwf) as [d Hd];
    [intros ->; discriminate Hzero |].
  rewrite Hd. apply Nat.ltb_lt in Hlen. rewrite Hlen. eexists. reflexivity.
Qed.

Lemma turn_page_empty (ids : gset hkey) (results : list value) (reply : exn + Response) :
  page_of reply = Return [] -> turn_page ids results reply = Last results.
Proof. intros H. unfold turn_page. rewrite H. simpl. rewrite app_nil_r. reflexivity. Qed.

(** *** Counting the requests *)

Lemma https_snoc_http (tr : list event) (t : Q) (p : PreparedRequest) (took : Q)
      (reply : exn + Response) :
  https (tr ++ [Http t p took reply]) = https tr ++ [Http t p took reply].
Proof. unfold https. rewrite filter_app. reflexivity. Qed.

Lemma https_snoc_print (tr : list event) (line : string) : https (tr ++ [Print line]) = https tr.
Proof. unfold https. rewrite filter_app. apply app_nil_r. Qed.

Lemma https_snoc_sleep (tr : list event) (secs : Q) : https (tr ++ [Sleep secs]) = https tr.
Proof. unfold https. rewrite filter_app. apply app_nil_r. Qed.

Lemma https_turn (p : PreparedRequest) (line : string) (w : World) :
  length (https (trace (told line (exchanged p w)))) = S (length (https (trace w))).
Proof.
  unfold told, exchanged. cbn [trace]. rewrite https_snoc_print, https_snoc_http, length_app.
  simpl. lia.
Qed.

(** *** Termination of the aggregation *)

Lemma loop_stops_at_the_short_page (self : FtxClient) (market : string)
      (start_time : option Q) (K : nat) :
  forall (fuel : nat) (end_time : option Q) (ids : gset hkey) (results : list value)
         (w : World),
    (forall k p, (k < K)%nat -> full_page (snd (server (length (https (trace w)) + k) p))) ->
    (forall p, short_page (snd (server (length (https (trace w)) + K) p))) ->
    ((fuel <= K)%nat ->
     exists w', get_all_trades_loop fuel self market start_time end_time ids results w
                = (Unfinished, w'))
    /\ ((K < fuel)%nat ->
        exists all w',
          get_all_trades_loop fuel self market start_time end_time ids results w
          = (Done (Return all), w')
          /\ length (https (trace w')) = (length (https (trace w)) + K + 1)%nat
          /\ (K = 0%nat ->
              (forall p, page_of (snd (server (length (https (trace w))) p)) = Return []) ->
              all = results)).
Proof.
  induction K as [| K IH]; intros fuel end_time ids results w Hfull Hshort.
  - destruct fuel as [| fuel].
    + split; [intros _; eexists; reflexivity | lia].
    + split; [lia | intros _]. rewrite loop_turn.
      specialize (Hshort (page_request self market start_time end_time (now w))).
      rewrite Nat.add_0_r in Hshort.
      destruct (turn_page_short ids results _ Hshort) as [all Hall]. rewrite Hall.
      eexists _, _. split; [reflexivity |]. split; [rewrite https_turn; lia |].
      intros _ Hempty. rewrite turn_page_empty in Hall by apply Hempty. congruence.
  - destruct fuel as [| fuel].
    + split; [intros _; eexists; reflexivity | lia].
    + rewrite loop_turn.
      pose proof (Hfull 0%nat (page_request self market start_time end_time (now w))
                        ltac:(lia)) as Hfirst.
      rewrite Nat.add_0_r in Hfirst.
      destruct (turn_page_full ids results _ Hfirst) as [cursor [seen [all Hnext]]].
      rewrite Hnext.
      match goal with
      | |- context [get_all_trades_loop fuel _ _ _ _ _ _ ?w2] =>
          destruct (IH fuel (Some cursor) seen all w2) as [Hout Hdone]
      end.
      * intros k p Hk. rewrite https_turn. replace (S _ + k)%nat with
          (length (https (trace w)) + S k)%nat by lia. apply Hfull. lia.
      * intros p. rewrite https_turn. replace (S _ + K)%nat with
          (length (https (trace w)) + S K)%nat by lia. apply Hshort.
      * split.
        -- intros Hle. apply Hout. lia.
        -- intros Hlt. destruct Hdone as [all' [w' [Hrun [Hcount _]]]]; [lia |].
           exists all', w'. split; [exact Hrun |]. split; [| discriminate].
           rewrite Hcount, https_turn. lia.
Qed.


(** *** Deduplication *)

Lemma fetched_app (a b : list event) : fetched (a ++ b) = fetched a ++ fetched b.
Proof.
  induction a as [| e a IH]; [reflexivity |].
  destruct e as [t p took reply | secs | line]; simpl; try exact IH.
  destruct (page_of reply); simpl; rewrite IH; reflexivity.
Qed.

Lemma dedupe_returns (ids : gset hkey) (page kept : list value) :
  dedupe ids page = Return kept ->
  Forall has_id page /\ kept = filter (fun r => is_fresh ids r = true) page.
Proof.
  revert kept. induction page as [| r page IH]; intros kept H.
  - injection H as <-. split; [constructor | reflexivity].
  - cbn [dedupe] in H. rewrite unseen_the_id in H.
    destruct (the_id r) as [k |] eqn:Hk; [| discriminate H]. cbn [obind] in H.
    destruct (dedupe ids page) as [rest |]; [| discriminate H]. cbn [obind] in H.
    destruct (IH rest eq_refl) as [Hall ->]. injection H as <-.
    split; [constructor; [exists k; exact Hk | exact Hall] |].
    assert (Hf : is_fresh ids r = bool_decide (k ∉ ids))
      by (unfold is_fresh; rewrite Hk; reflexivity).
    rewrite filter_cons, <- Hf.
    destruct (decide (is_fresh ids r = true)) as [Hyes | Hno].
    + rewrite Hyes. reflexivity.
    + apply not_true_is_false in Hno. rewrite Hno. reflexivity.
Qed.

Lemma elem_of_identifiers (k : hkey) (l : list value) :
  k ∈ identifiers l <-> exists r, r ∈ l /\ the_id r = Return k.
Proof.
  unfold identifiers. rewrite list_elem_of_omap. split.
  - intros [r [Hr Hk]]. exists r. split; [exact Hr |].
    destruct (the_id r); congruence.
  - intros [r [Hr Hk]]. exists r. split; [exact Hr |]. rewrite Hk. reflexivity.
Qed.

Lemma identifiers_app (a b : list value) :
  identifiers (a ++ b) = identifiers a ++ identifiers b.
Proof. unfold identifiers. apply omap_app. Qed.

Lemma identifiers_length (l : list value) :
  Forall has_id l -> length (identifiers l) = length l.
Proof.
  induction 1 as [| r l [k Hk] _ IH]; [reflexivity |].
  unfold identifiers in *. cbn [omap list_omap]. rewrite Hk. simpl. rewrite IH. reflexivity.
Qed.

Lemma Forall_has_id_filter (P : value -> Prop) `{forall r, Decision (P r)} (l : list value) :
  Forall has_id l -> Forall has_id (filter P l).
Proof.
  intros Hl. apply Forall_forall. intros r Hr. rewrite list_elem_of_filter in Hr.
  rewrite Forall_forall in Hl. apply Hl, Hr.
Qed.

Lemma NoDup_identifiers_filter (P : value -> Prop) `{forall r, Decision (P r)}
      (l : list value) :
  NoDup (identifiers l) -> NoDup (identifiers (filter P l)).
Proof.
  induction l as [| r l IH]; [intros _; constructor |].
  rewrite filter_cons. unfold identifiers in *. cbn [omap list_omap].
  destruct (the_id r) as [k |] eqn:Hk.
  - intros Hnd. apply NoDup_cons in Hnd as [Hnotin Hnd].
    destruct (decide (P r)); [| apply IH, Hnd].
    cbn [omap list_omap]. rewrite Hk. apply NoDup_cons. split; [| apply IH, Hnd].
    intros Hin. apply Hnotin. fold (identifiers l). fold (identifiers (filter P l)) in Hin.
    rewrite elem_of_identifiers in *. destruct Hin as [r' [Hr' Hk']].
    exists r'. split; [| exact Hk']. rewrite list_elem_of_filter in Hr'. apply Hr'.
  - intros Hnd. destruct (decide (P r)); [| apply IH, Hnd].
    cbn [omap list_omap]. rewrite Hk. apply IH, Hnd.
Qed.

(** Adding the unseen records of a page to distinct results. *)
Lemma extend_distinct (ids : gset hkey) (results page : list value) :
  NoDup (identifiers results) ->
  ids = list_to_set (identifiers results) ->
  NoDup (identifiers page) ->
  Forall has_id page ->
  let kept := filter (fun r => is_fresh ids r = true) page in
  NoDup (identifiers (results ++ kept))
  /\ ids ∪ list_to_set (identifiers kept) = list_to_set (identifiers (results ++ kept))
  /\ (list_to_set (identifiers (results ++ kept)) : gset hkey)
     = list_to_set (identifiers results) ∪ list_to_set (identifiers page).
Proof.
  intros Hnd -> Hpage Hids kept.
  assert (Hkept : forall k, k ∈ identifiers kept
                            <-> k ∈ identifiers page /\ k ∉ identifiers results).
  { intros k. split.
    - intros Hin. apply elem_of_identifiers in Hin as [r [Hr Hk]].
      subst kept. rewrite list_elem_of_filter in Hr. destruct Hr as [Hfresh Hr].
      split; [apply elem_of_identifiers; exists r; split; assumption |].
      unfold is_fresh in Hfresh. rewrite Hk in Hfresh.
      apply bool_decide_eq_true in Hfresh. rewrite elem_of_list_to_set in Hfresh.
      exact Hfresh.
    - intros [Hin Hnotin]. apply elem_of_identifiers in Hin as [r [Hr Hk]].
      apply elem_of_identifiers. exists r. split; [| exact Hk].
      subst kept. rewrite list_elem_of_filter. split; [| exact Hr].
      unfold is_fresh. rewrite Hk. apply bool_decide_eq_true.
      rewrite elem_of_list_to_set. exact Hnotin. }
  rewrite identifiers_app. split; [| split].
  - apply NoDup_app. split; [exact Hnd |]. split.
    + intros k Hin Hin'. apply Hkept in Hin'. tauto.
    + apply NoDup_identifiers_filter, Hpage.
  - rewrite list_to_set_app_L. reflexivity.
  - apply set_eq. intros k. rewrite list_to_set_app_L, !elem_of_union, !elem_of_list_to_set.
    rewrite Hkept. destruct (decide (k ∈ identifiers results)); tauto.
Qed.

Lemma turn_page_last (ids : gset hkey) (results : list value) (reply : exn + Response)
      (all : list value) :
  turn_page ids results reply = Last all ->
  exists page,
    page_of reply = Return page /\ Forall has_id page
    /\ all = results ++ filter (fun r => is_fresh ids r = true) page
    /\ (length page < limit)%nat.
Proof.
  unfold turn_page. destruct (page_of reply) as [page |]; [| discriminate].
  destruct (dedupe ids page) as [kept |] eqn:Hkept; [| discriminate].
  apply dedupe_returns in Hkept as [Hids ->].
  destruct (id_set _); [| discriminate].
  destruct (length page =? 0)%nat eqn:Hzero.
  - intros [= <-]. exists page. apply Nat.eqb_eq in Hzero. unfold limit.
    repeat split; [exact Hids | lia].
  - destruct (earliest page); [| discriminate].
    destruct (length page <? limit)%nat eqn:Hshort; [| discriminate].
    intros [= <-]. exists page. apply Nat.ltb_lt in Hshort. repeat split; assumption.
Qed.

Lemma turn_page_next (ids : gset hkey) (results : list value) (reply : exn + Response)
      (cursor : Q) (seen : gset hkey) (all : list value) :
  turn_page ids results reply = Next cursor seen all ->
  exists page d,
    page_of reply = Return page /\ Forall has_id page
    /\ all = results ++ filter (fun r => is_fresh ids r = true) page
    /\ seen = ids ∪ list_to_set (identifiers (filter (fun r => is_fresh ids r = true) page))
    /\ page <> [] /\ earliest page = Return d /\ cursor = timestamp d
    /\ (limit <= length page)%nat.
Proof.
  unfold turn_page. destruct (page_of reply) as [page |]; [| discriminate].
  destruct (dedupe ids page) as [kept |] eqn:Hkept; [| discriminate].
  apply dedupe_returns in Hkept as [Hids ->].
  rewrite id_set_has_ids by (apply Forall_has_id_filter, Hids).
  destruct (length page =? 0)%nat eqn:Hzero; [discriminate |].
  destruct (earliest page) as [d |] eqn:Hd; [| discriminate].
  destruct (length page <? limit)%nat eqn:Hshort; [discriminate |].
  intros [= <- <- <-]. exists page, d. apply Nat.ltb_ge in Hshort.
  split; [reflexivity |]. split; [exact Hids |]. split; [reflexivity |].
  split; [reflexivity |]. split; [intros ->; discriminate Hzero |].
  split; [exact Hd |]. split; [reflexivity | exact Hshort].
Qed.

Lemma trace_turn (p : PreparedRequest) (line : string) (w : World) :
  trace (told line (exchanged p w))
  = trace w ++ [Http (now w) p (fst (server (length (https (trace w))) p))
                     (snd (server (length (https (trace w))) p)); Print line].
Proof. unfold told, exchanged. cbn [trace]. rewrite <- app_assoc. reflexivity. Qed.

Lemma loop_keeps_ids_distinct (self : FtxClient) (market : string) (start_time : option Q) :
  (forall n p page, page_of (snd (server n p)) = Return page -> NoDup (identifiers page)) ->
  forall (fuel : nat) (end_time : option Q) (ids : gset hkey) (results : list value)
         (w : World) (all : list value) (w' : World),
    NoDup (identifiers results) ->
    Forall has_id results ->
    ids = list_to_set (identifiers results) ->
    get_all_trades_loop fuel self market start_time end_time ids results w
    = (Done (Return all), w') ->
    exists new,
      trace w' = trace w ++ new
      /\ NoDup (identifiers all)
      /\ Forall has_id all
      /\ (list_to_set (identifiers all) : gset hkey)
         = list_to_set (identifiers results) ∪ list_to_set (identifiers (concat (fetched new))).
Proof.
  intros Hpages. induction fuel as [| fuel IH];
    intros end_time ids results w all w' Hnd Hids Hseen Hrun; [discriminate Hrun |].
  rewrite loop_turn in Hrun.
  destruct (turn_page ids results _) as [printed e | last | cursor seen mid] eqn:Hturn.
  - destruct printed; discriminate Hrun.
  - injection Hrun as <- <-.
    apply turn_page_last in Hturn as [page [Hpage [Hpids [-> _]]]].
    destruct (extend_distinct ids results page Hnd Hseen (Hpages _ _ _ Hpage) Hpids)
      as [Hnd' [_ Hset]].
    eexists. split; [apply trace_turn |]. split; [exact Hnd' |].
    split; [apply Forall_app; split; [exact Hids | apply Forall_has_id_filter, Hpids] |].
    cbn [fetched]. rewrite Hpage. cbn [fetched concat]. rewrite app_nil_r. exact Hset.
  - apply turn_page_next in Hturn
      as [page [d [Hpage [Hpids [-> [-> [_ [_ [_ _]]]]]]]]].
    destruct (extend_distinct ids results page Hnd Hseen (Hpages _ _ _ Hpage) Hpids)
      as [Hnd' [Hseen' Hset]].
    apply IH in Hrun as [new [Htrace [Hnd'' [Hids'' Hset']]]];
      [| exact Hnd'
       | apply Forall_app; split; [exact Hids | apply Forall_has_id_filter, Hpids]
       | exact Hseen'].
    eexists. split; [rewrite Htrace, trace_turn, <- app_assoc; reflexivity |].
    split; [exact Hnd'' |]. split; [exact Hids'' |].
    rewrite Hset', Hset. cbn [app fetched]. rewrite Hpage. cbn [fetched concat].
    rewrite identifiers_app, list_to_set_app_L. apply set_eq. intros k.
    rewrite !elem_of_union. tauto.
Qed.

(** C3: a record of a page is kept exactly when its identifier is not in
    the seen set, and nothing but the identifier decides it.  Identifiers
    are unique within a market, so that no page of the exchange lists one
    twice; then every identifier occurs once in the result, the identifiers
    of the result are those of the pages fetched, and the result has as
    many records as the pages have distinct identifiers between them: the
    size of the union, not the sum. *)
Theorem trade_ids_stay_distinct :
  (forall ids page kept,
      dedupe ids page = Return kept ->
      kept = filter (fun r => is_fresh ids r = true) page
      /\ forall r r', the_id r = the_id r' -> is_fresh ids r = is_fresh ids r')
  /\ (forall fuel self market start_time end_time w all w',
         (forall n p page, page_of (snd (server n p)) = Return page ->
                           NoDup (identifiers page)) ->
         get_all_trades fuel self market start_time end_time w = (Done (Return all), w') ->
         exists new,
           trace w' = trace w ++ new
           /\ NoDup (identifiers all)
           /\ length (identifiers all) = length all
           /\ (list_to_set (identifiers all) : gset hkey)
              = list_to_set (identifiers (concat (fetched new)))
           /\ length all
              = size (list_to_set (identifiers (concat (fetched new))) : gset hkey)).
Proof.
  split.
  - intros ids page kept Hkept. split; [apply (dedupe_returns ids page kept Hkept) |].
    intros r r' Heq. unfold is_fresh. rewrite Heq. reflexivity.
  - intros fuel self market start_time end_time w all w' Hpages Hrun.
    unfold get_all_trades in Hrun.
    destruct (get_all_trades_loop fuel self market start_time end_time ∅ [] w)
      as [[[mid | e] |] w1] eqn:Hloop.
    + rewrite (slow_down_return _ _ _ _ Hloop) in Hrun. injection Hrun as <- Hw'.
      apply (loop_keeps_ids_distinct self market start_time Hpages) in Hloop
          as [new [Htrace [Hnd [Hids Hset]]]];
        [| constructor | constructor | reflexivity].
      assert (Hset' : (list_to_set (identifiers mid) : gset hkey)
                      = list_to_set (identifiers (concat (fetched new)))).
      { rewrite Hset. simpl. apply set_eq. intros k. rewrite elem_of_union.
        rewrite elem_of_empty. tauto. }
      assert (Hsize : length mid
                      = size (list_to_set (identifiers (concat (fetched new))) : gset hkey)).
      { rewrite <- Hset', size_list_to_set by exact Hnd. symmetry.
        apply identifiers_length, Hids. }
      destruct (Qlt_le_dec (now w1 - now w) floor); subst w'; cbn [trace].
      * exists (new ++ [Sleep (floor - (now w1 - now w))]).
        rewrite Htrace, <- app_assoc, fetched_app. cbn [fetched]. rewrite app_nil_r.
        repeat split; try assumption. apply identifiers_length, Hids.
      * exists new. repeat split; try assumption. apply identifiers_length, Hids.
    + rewrite (slow_down_raise _ _ _ _ Hloop) in Hrun. discriminate Hrun.
    + rewrite (slow_down_unfinished _ _ _ Hloop) in Hrun. discriminate Hrun.
Qed.

(** *** The cursor *)

Lemma https_turn_cons (t : Q) (p : PreparedRequest) (took : Q) (reply : exn + Response)
      (line : string) (later : list event) :
  https (Http t p took reply :: Print line :: later) = Http t p took reply :: https later.
Proof. reflexivity. Qed.

Lemma slow_down_trace {A} (func : M A) (w : World) :
  exists tail,
    trace (snd (slow_down func w)) = trace (snd (func w)) ++ tail
    /\ (tail = [] \/ exists secs, tail = [Sleep secs]).
Proof.
  destruct (func w) as [[[v | e] |] w1] eqn:Hrun.
  - rewrite (slow_down_return _ _ _ _ Hrun).
    destruct (Qlt_le_dec (now w1 - now w) floor); cbn [snd trace].
    + eexists. split; [reflexivity |]. right. eexists. reflexivity.
    + exists []. rewrite app_nil_r. split; [reflexivity | left; reflexivity].
  - rewrite (slow_down_raise _ _ _ _ Hrun). exists []. rewrite app_nil_r.
    split; [reflexivity | left; reflexivity].
  - rewrite (slow_down_unfinished _ _ _ Hrun). exists []. rewrite app_nil_r.
    split; [reflexivity | left; reflexivity].
Qed.



(** *** What the aggregation returns *)

Lemma all_fresh_at_first (page : list value) :
  Forall has_id page -> filter (fun r => is_fresh ∅ r = true) page = page.
Proof.
  induction 1 as [| r page [k Hk] _ IH]; [reflexivity |].
  rewrite filter_cons, IH. unfold is_fresh. rewrite Hk.
  rewrite bool_decide_eq_true_2 by apply not_elem_of_empty.
  destruct (decide (true = true)) as [_ | Hno]; [reflexivity | congruence].
Qed.

Lemma loop_gathers_the_pages (self : FtxClient) (market : string) (start_time : option Q) :
  forall (fuel : nat) (end_time : option Q) (ids : gset hkey) (results : list value)
         (w : World) (all : list value) (w' : World),
    get_all_trades_loop fuel self market start_time end_time ids results w
    = (Done (Return all), w') ->
    exists new pages last,
      trace w' = trace w ++ new
      /\ fetched new = pages ++ [last]
      /\ length (https new) = S (length pages)
      /\ Forall (fun page => (limit <= length page)%nat) pages
      /\ (length last < limit)%nat
      /\ Forall (Forall has_id) (fetched new)
      /\ all = results ++ gathered ids (fetched new).
Proof.
  induction fuel as [| fuel IH];
    intros end_time ids results w all w' Hrun; [discriminate Hrun |].
  rewrite loop_turn in Hrun.
  destruct (turn_page ids results _) as [printed e | last | cursor seen mid] eqn:Hturn.
  - destruct printed; discriminate Hrun.
  - injection Hrun as <- <-.
    apply turn_page_last in Hturn as [page [Hpage [Hpids [-> Hshort]]]].
    eexists _, [], page. split; [apply trace_turn |].
    cbn [fetched]. rewrite Hpage. cbn [fetched gathered app].
    split; [reflexivity |]. split; [reflexivity |]. split; [constructor |].
    split; [exact Hshort |]. split; [repeat constructor; exact Hpids |].
    rewrite app_nil_r. reflexivity.
  - apply turn_page_next in Hturn
      as [page [d [Hpage [Hpids [-> [-> [_ [_ [_ Hfull]]]]]]]]].
    apply IH in Hrun
        as [new [pages [last [Htrace [Hfetched [Hcount [Hfulls [Hshort [Hids ->]]]]]]]]].
    eexists _, (page :: pages), last.
    split; [rewrite Htrace, trace_turn, <- app_assoc; reflexivity |].
    cbn [app]. rewrite https_turn_cons. cbn [fetched]. rewrite Hpage.
    cbn [fetched gathered]. rewrite Hfetched.
    split; [reflexivity |]. split; [cbn [length]; rewrite Hcount; reflexivity |].
    split; [constructor; [exact Hfull | exact Hfulls] |]. split; [exact Hshort |].
    split; [constructor; [exact Hpids | rewrite <- Hfetched; exact Hids] |].
    rewrite <- app_assoc. reflexivity.
Qed.

(** C5: the loop ends with the first reply that carries fewer than [limit]
    records, and not before: when the first [K] replies carry full pages
    and the next one a short page, the aggregation is still running after
    [K] requests, and, given room for one more, returns after exactly
    [K + 1] requests.  What it returns is what it gathered from the [K]
    full pages and the short one: of each page the records whose identifier
    was not on a page before it, the first page as a whole.  A short page
    that comes first is returned as it is, and a first reply with no record
    at all ends the aggregation after one request, with an empty result. *)
Theorem get_all_trades_stops_at_the_first_short_page (self : FtxClient) (market : string)
        (start_time end_time : option Q) (w : World) (K : nat) :
  let n := length (https (trace w)) in
  (forall k p, (k < K)%nat -> full_page (snd (server (n + k) p))) ->
  (forall p, short_page (snd (server (n + K) p))) ->
  (forall fuel, (fuel <= K)%nat ->
                exists w', get_all_trades fuel self market start_time end_time w
                           = (Unfinished, w'))
  /\ (forall fuel, (K < fuel)%nat ->
                   exists all w' new pages last,
                     get_all_trades fuel self market start_time end_time w
                     = (Done (Return all), w')
                     /\ length (https (trace w')) = (n + K + 1)%nat
                     /\ trace w' = trace w ++ new
                     /\ fetched new = pages ++ [last]
                     /\ length pages = K
                     /\ Forall (fun page => (limit <= length page)%nat) pages
                     /\ (length last < limit)%nat
                     /\ all = gathered ∅ (fetched new)
                     /\ (exists more, all = hd last pages ++ more)
                     /\ (K = 0%nat -> all = last)
                     /\ (K = 0%nat ->
                         (forall p, page_of (snd (server n p)) = Return []) ->
                         all = [])).
Proof.
  intros n Hfull Hshort. split; intros fuel Hfuel.
  - destruct (loop_stops_at_the_short_page self market start_time K fuel end_time ∅ [] w
                Hfull Hshort) as [Hout _].
    destruct (Hout Hfuel) as [w' Hrun]. exists w'. apply slow_down_unfinished, Hrun.
  - destruct (loop_stops_at_the_short_page self market start_time K fuel end_time ∅ [] w
                Hfull Hshort) as [_ Hdone].
    destruct (Hdone Hfuel) as [all [w1 [Hrun [Hcount Hempty]]]].
    destruct (loop_gathers_the_pages self market start_time _ _ _ _ _ _ _ Hrun)
      as [new [pages [last [Htrace [Hfetched [Hsent [Hfulls [Hlast [Hids Hall]]]]]]]]].
    cbn [app] in Hall.
    assert (Hlen : length pages = K).
    { rewrite Htrace in Hcount. unfold https in Hcount, Hsent.
      rewrite filter_app, length_app, Hsent in Hcount. fold n in Hcount.
      unfold https in n. lia. }
    assert (Hfirst : exists more, all = hd last pages ++ more).
    { rewrite Hall. rewrite Hfetched in Hids |- *.
      destruct pages as [| first pages]; cbn [app hd gathered] in Hids |- *;
        apply Forall_cons in Hids; eexists;
        (rewrite all_fresh_at_first; [reflexivity | apply Hids]). }
    assert (Hone : K = 0%nat -> all = last).
    { intros HK. rewrite HK in Hlen. apply length_zero_iff_nil in Hlen. subst pages.
      rewrite Hall, Hfetched in *. cbn [app gathered] in *. rewrite app_nil_r.
      apply all_fresh_at_first. apply Forall_cons in Hids. apply Hids. }
    destruct (Qlt_le_dec (now w1 - now w) floor) as [Hlt | Hge] eqn:Hdec.
    + exists all, {| now := now w1 + (floor - (now w1 - now w));
                     trace := trace w1 ++ [Sleep (floor - (now w1 - now w))] |},
             (new ++ [Sleep (floor - (now w1 - now w))]), pages, last.
      split; [unfold get_all_trades; rewrite (slow_down_return _ _ _ _ Hrun), Hdec; reflexivity |].
      cbn [trace]. rewrite https_snoc_sleep, fetched_app. cbn [fetched].
      rewrite app_nil_r, Htrace, <- app_assoc.
      rewrite Htrace in Hcount.
      repeat (split; [first [exact Hcount | reflexivity | assumption] |]).
      exact Hempty.
    + exists all, w1, new, pages, last.
      split; [unfold get_all_trades; rewrite (slow_down_return _ _ _ _ Hrun), Hdec; reflexivity |].
      repeat (split; [first [exact Hcount | reflexivity | assumption] |]).
      exact Hempty.
Qed.

(** *** The throttle and the page requests *)

Lemma loop_back_to_back (self : FtxClient) (market : string) (start_time : option Q) :
  forall (fuel : nat) (end_time : option Q) (ids : gset hkey) (results : list value)
         (w : World),
  exists new,
    trace (snd (get_all_trades_loop fuel self market start_time end_time ids results w))
    = trace w ++ new
    /\ back_to_back (now w) new.
Proof.
  induction fuel as [| fuel IH]; intros end_time ids results w.
  - exists []. rewrite app_nil_r. split; [reflexivity | exact I].
  - rewrite loop_turn.
    destruct (turn_page ids results _) as [printed e | last | cursor seen mid].
    + destruct printed; cbn [snd].
      * eexists. split; [apply trace_turn |]. repeat split.
      * eexists. split; [reflexivity |]. repeat split.
    + cbn [snd]. eexists. split; [apply trace_turn |]. repeat split.
    + match goal with
      | |- context [get_all_trades_loop fuel _ _ _ ?e ?i ?r ?w2] =>
          destruct (IH e i r w2) as [new [Htrace Hchain]]
      end.
      eexists. split; [rewrite Htrace, trace_turn, <- app_assoc; reflexivity |].
      cbn [app back_to_back]. split; [reflexivity | exact Hchain].
Qed.

Lemma slow_down_floor {A} (func : M A) (w : World) (v : A) :
  fst (slow_down func w) = Done (Return v) ->
  (floor <= now (snd (slow_down func w)) - now w)%Q.
Proof.
  destruct (func w) as [[[v' | e] |] w1] eqn:Hrun.
  - rewrite (slow_down_return _ _ _ _ Hrun). intros _.
    destruct (Qlt_le_dec (now w1 - now w) floor); cbn [snd now]; lra.
  - rewrite (slow_down_raise _ _ _ _ Hrun). discriminate.
  - rewrite (slow_down_unfinished _ _ _ Hrun). discriminate.
Qed.

Lemma slow_down_lasts {A} (func : M A) : lasts_the_floor (slow_down func).
Proof. intros w v. apply slow_down_floor. Qed.

(** Every public operation of the client is wrapped by the throttle. *)
Lemma every_public_operation_lasts_the_floor (self : FtxClient) :
  lasts_the_floor (list_futures self)
  /\ lasts_the_floor (list_markets self)
  /\ (forall market depth, lasts_the_floor (get_orderbook self market depth))
  /\ (forall market, lasts_the_floor (get_trades self market))
  /\ lasts_the_floor (get_account_info self)
  /\ (forall market, lasts_the_floor (get_open_orders self market))
  /\ (forall market side order_type start_time end_time,
         lasts_the_floor (get_order_history self market side order_type start_time end_time))
  /\ (forall market side type order_type start_time end_time,
         lasts_the_floor (get_conditional_order_history self market side type order_type
                                                        start_time end_time))
  /\ (forall coin size source destination,
         lasts_the_floor (transfer_to_subaccount self coin size source destination))
  /\ (forall market resolution limit start_time end_time,
         lasts_the_floor (get_historical_prices self market resolution limit
                                                start_time end_time))
  /\ (forall existing_order_id existing_client_order_id price size client_order_id,
         lasts_the_floor (modify_order self existing_order_id existing_client_order_id
                                       price size client_order_id))
  /\ (forall order_id order_type triggerPrice trailValue size,
         lasts_the_floor (modify_conditional_order self order_id order_type triggerPrice
                                                   trailValue size))
  /\ (forall market, lasts_the_floor (get_conditional_orders self market))
  /\ (forall market side price size type reduce_only ioc post_only client_id,
         lasts_the_floor (place_order self market side price size type reduce_only ioc
                                      post_only client_id))
  /\ (forall market side size order_type limit_price reduce_only cancel triggerPrice
              trailValue,
         lasts_the_floor (place_conditional_order self market side size order_type
                                                  limit_price reduce_only cancel triggerPrice
                                                  trailValue))
  /\ (forall order_id, lasts_the_floor (cancel_order self order_id))
  /\ (forall order_id, lasts_the_floor (cancel_conditional_order self order_id))
  /\ (forall market_name conditional_orders limit_orders,
         lasts_the_floor (cancel_orders self market_name conditional_orders limit_orders))
  /\ lasts_the_floor (get_fills self)
  /\ lasts_the_floor (get_balances self)
  /\ (forall ticker, lasts_the_floor (get_deposit_address self ticker))
  /\ (forall show_avg_price, lasts_the_floor (get_positions self show_avg_price))
  /\ (forall name show_avg_price, lasts_the_floor (get_position self name show_avg_price))
  /\ (forall fuel market start_time end_time,
         lasts_the_floor (get_all_trades fuel self market start_time end_time)).
Proof. repeat split; intros; apply slow_down_lasts. Qed.

(** C2, as the code has it: the throttle wraps the aggregation as a whole.
    A call of [get_all_trades] that returns has lasted the floor at least,
    the one sleep of the throttle coming after the last page; the page
    requests inside it go through [_get], which is not throttled: each one
    starts at the instant the reply to the one before it arrived, and no
    sleep separates them. *)
Theorem aggregation_is_throttled_as_a_whole (fuel : nat) (self : FtxClient)
        (market : string) (start_time end_time : option Q) (w : World) :
  let run := get_all_trades fuel self market start_time end_time w in
  exists pages tail,
    trace (snd run) = trace w ++ pages ++ tail
    /\ back_to_back (now w) pages
    /\ (tail = [] \/ exists secs, tail = [Sleep secs])
    /\ (forall all, fst run = Done (Return all) -> (floor <= now (snd run) - now w)%Q).
Proof.
  intros run. subst run. unfold get_all_trades.
  destruct (slow_down_trace
              (get_all_trades_loop fuel self market start_time end_time ∅ []) w)
    as [tail [Htrace Htail]].
  destruct (loop_back_to_back self market start_time fuel end_time ∅ [] w)
    as [new [Hnew Hchain]].
  exists new, tail. split; [rewrite Htrace, Hnew, <- app_assoc; reflexivity |].
  split; [exact Hchain |]. split; [exact Htail |].
  intros all. apply slow_down_floor.
Qed.

(** *** Checking a page by computation *)

Lemma well_formed_b_sound (page : list value) :
  forallb well_formed_b page = true -> Forall well_formed page.
Proof.
  induction page as [| r page IH]; [constructor |].
  cbn [forallb]. intros H. apply andb_prop in H as [Hr Hpage].
  constructor; [| apply IH, Hpage]. unfold well_formed_b in Hr. unfold well_formed.
  destruct (the_id r) as [k |]; [| discriminate Hr].
  destruct (trade_time r) as [d |]; [| discriminate Hr].
  split; eexists; reflexivity.
Defined.

(** ** Further properties of the transport *)

(** X1: [_request] talks to the exchange exactly once, whatever comes back:
    the request it sends is answered by the reply of the exchange for the
    next request number; a failure of the transport is raised as it is, an
    answer is handed to [_process_response], and in both cases there is no
    second attempt and no sleep: the clock moves by the round trip only. *)
Theorem _request_sends_once (self : FtxClient) (method : Method) (path : string)
        (params json : option dict) (w : World) :
  exists p took reply,
    server (length (https (trace w))) p = (took, reply)
    /\ snd (_request self method path params json w)
       = {| now := now w + took; trace := trace w ++ [Http (now w) p took reply] |}
    /\ match reply with
       | inl e => fst (_request self method path params json w) = Done (Raise e)
       | inr response =>
           fst (_request self method path params json w)
           = fst (_process_response response w)
       end.
Proof.
  rewrite _request_run. unfold exchanged. cbn [fst snd].
  destruct (server (length (https (trace w))) (wire self method path params json (now w)))
    as [took reply] eqn:Hreply.
  exists (wire self method path params json (now w)), took, reply.
  split; [exact Hreply |]. split; [reflexivity |].
  destruct reply as [e | response]; [reflexivity |].
  rewrite _process_response_pure. reflexivity.
Qed.

(** X2: [_process_response] returns a payload exactly when the body is a
    JSON object whose [success] is truthy and whose [result] is that
    payload; the status code plays no part once the body is JSON. *)
Theorem _process_response_returns_iff (response : Response) (w : World) (payload : value) :
  _process_response response w = (Done (Return payload), w)
  <-> exists kv success,
      decoded response = Some (VDict kv)
      /\ assoc "success" kv = Some success
      /\ truthy success = true
      /\ assoc "result" kv = Some payload.
Proof.
  rewrite _process_response_pure. unfold envelope. split.
  - intros H. destruct (decoded response) as [data |].
    + destruct data as [| b | z | q | s | l | kv]; try discriminate H.
      cbn [getitem obind] in H.
      destruct (assoc "success" kv) as [success |] eqn:Hs; [| discriminate H].
      cbn [obind] in H. destruct (truthy success) eqn:Ht.
      * destruct (assoc "result" kv) as [r |] eqn:Hr; [| discriminate H].
        injection H as ->. exists kv, success. repeat split; assumption.
      * destruct (assoc "error" kv); discriminate H.
    + destruct ((400 <=? status_code response) && (status_code response <? 600));
        discriminate H.
  - intros [kv [success [Hd [Hs [Ht Hr]]]]]. rewrite Hd. cbn [getitem obind].
    rewrite Hs. cbn [obind]. rewrite Ht, Hr. reflexivity.
Qed.

(** X3: what [_process_response] raises on a body that is JSON but not the
    envelope it expects: [TypeError] when the body is not an object,
    [KeyError] for a missing [success], for a missing [error] under a falsy
    [success] and for a missing [result] under a truthy one; and under a
    falsy [success] the exception carries the [error] value whatever it is. *)
Theorem _process_response_on_odd_bodies (response : Response) (w : World) (data : value) :
  decoded response = Some data ->
  ((forall kv, data <> VDict kv) ->
   _process_response response w = (Done (Raise TypeError), w))
  /\ (forall kv, data = VDict kv ->
        (assoc "success" kv = None ->
         _process_response response w = (Done (Raise (KeyError "success")), w))
        /\ (forall success,
              assoc "success" kv = Some success -> truthy success = false ->
              match assoc "error" kv with
              | Some error => _process_response response w
                              = (Done (Raise (Exception error)), w)
              | None => _process_response response w
                        = (Done (Raise (KeyError "error")), w)
              end)
        /\ (forall success,
              assoc "success" kv = Some success -> truthy success = true ->
              assoc "result" kv = None ->
              _process_response response w = (Done (Raise (KeyError "result")), w))).
Proof.
  intros Hd. rewrite _process_response_pure. unfold envelope. rewrite Hd. split.
  - intros Hnot. destruct data; try reflexivity. exfalso. apply (Hnot kv). reflexivity.
  - intros kv ->. cbn [getitem obind]. split; [| split].
    + intros ->. reflexivity.
    + intros success -> Hf. cbn [obind]. rewrite Hf. destruct (assoc "error" kv); reflexivity.
    + intros success -> Ht ->. cbn [obind]. rewrite Ht. reflexivity.
Qed.

Lemma ord_chr_ord (a : ascii) : Text.ord (Text.chr (Text.ord a)) = Text.ord a.
Proof.
  unfold Text.chr, Text.ord. pose proof (nat_ascii_bounded a) as Hb.
  rewrite Z.mod_small by lia. rewrite Nat2Z.id, ascii_nat_embedding. reflexivity.
Qed.

Lemma HEX_digit_safe (z : Z) : 0 <= z < 16 -> always_safe (Text.ord (Text.HEX_digit z)) = true.
Proof.
  intros Hz.
  assert (Hcases : z = 0 \/ z = 1 \/ z = 2 \/ z = 3 \/ z = 4 \/ z = 5 \/ z = 6 \/ z = 7
                   \/ z = 8 \/ z = 9 \/ z = 10 \/ z = 11 \/ z = 12 \/ z = 13 \/ z = 14
                   \/ z = 15) by lia.
  repeat (destruct Hcases as [-> | Hcases]; [reflexivity |]). subst z. reflexivity.
Qed.

Lemma quoted_octets_header_safe (l : list ascii) :
  Forall (fun c => header_safe c = true)
         (flat_map (fun c => if always_safe c || existsb (Z.eqb c) (Text.octets "/")
                             then [Text.chr c] else percent c)
                   (map Text.ord l)).
Proof.
  induction l as [| a l IH]; [constructor |].
  cbn [map flat_map]. apply Forall_app. split; [| exact IH].
  destruct (always_safe (Text.ord a) || existsb (Z.eqb (Text.ord a)) (Text.octets "/"))
    eqn:Hsafe.
  - constructor; [| constructor]. unfold header_safe. rewrite ord_chr_ord.
    apply orb_true_iff in Hsafe as [Hsafe | Hslash].
    + rewrite Hsafe. reflexivity.
    + cbn in Hslash. rewrite orb_false_r in Hslash. apply Z.eqb_eq in Hslash.
      assert (Ha : Text.chr (Text.ord a) = "/"%char) by (rewrite Hslash; reflexivity).
      rewrite Ha. rewrite Ascii.eqb_refl, orb_true_r. reflexivity.
  - unfold percent. repeat constructor; unfold header_safe.
    + rewrite HEX_digit_safe by (apply Z.mod_pos_bound; lia). reflexivity.
    + rewrite HEX_digit_safe by (apply Z.mod_pos_bound; lia). reflexivity.
Qed.

Lemma quote_slash_header_safe (bs : string) :
  Forall (fun c => header_safe c = true) (Text.chars (quote "/" bs)).
Proof.
  unfold quote. unfold Text.chars at 1. unfold Text.text.
  rewrite list_ascii_of_string_of_list_ascii. apply quoted_octets_header_safe.
Qed.

(** X4: the request on the wire carries the API key as it is, and the
    subaccount header exactly when a subaccount name is set and not empty;
    its value is the name percent-encoded, made of nothing but letters,
    digits, [_ . - ~ /] and the escapes. *)
Theorem subaccount_header_is_quoted (self : FtxClient) (method : Method) (path : string)
        (params json : option dict) (w : World) :
  exists p took reply,
    trace (snd (_request self method path params json w))
    = trace w ++ [Http (now w) p took reply]
    /\ p_headers p !! "FTX-KEY" = Some (_api_key self)
    /\ p_headers p !! "FTX-SUBACCOUNT"
       = match _subaccount_name self with
         | Some name => if String.eqb name "" then None
                        else Some (quote "/" (Text.utf8 name))
         | None => None
         end
    /\ forall v, p_headers p !! "FTX-SUBACCOUNT" = Some v ->
                 Forall (fun c => header_safe c = true) (Text.chars v).
Proof.
  rewrite _request_run. unfold exchanged. cbn [snd trace].
  eexists _, _, _. split; [reflexivity |].
  unfold wire, prepare. cbn [p_headers headers]. unfold signed_headers.
  assert (Hsub : forall h : gmap string string,
             h !! "FTX-SUBACCOUNT" = None ->
             match _subaccount_name self with
             | Some name => if String.eqb name "" then h
                            else <["FTX-SUBACCOUNT" := quote "/" (Text.utf8 name)]> h
             | None => h
             end !! "FTX-SUBACCOUNT"
             = match _subaccount_name self with
               | Some name => if String.eqb name "" then None
                              else Some (quote "/" (Text.utf8 name))
               | None => None
               end).
  { intros h Hh. destruct (_subaccount_name self) as [name |]; [| exact Hh].
    destruct (String.eqb name ""); [exact Hh | apply lookup_insert_eq]. }
  split; [| split].
  - destruct (_subaccount_name self) as [name |]; [destruct (String.eqb name "") |];
      repeat (rewrite lookup_insert_ne by discriminate); apply lookup_insert_eq.
  - apply Hsub. repeat (rewrite lookup_insert_ne by discriminate). apply lookup_empty.
  - intros v. rewrite Hsub
      by (repeat (rewrite lookup_insert_ne by discriminate); apply lookup_empty).
    destruct (_subaccount_name self) as [name |]; [| discriminate].
    destruct (String.eqb name ""); [discriminate |].
    intros [= <-]. apply quote_slash_header_safe.
Qed.

(** X5: a call that raises is not padded: the throttle hands the exception
    on at the instant the call failed, without sleeping, so that the wrapper
    does just what the call does. *)
Theorem failed_call_is_not_padded {A} (func : M A) (w : World) (e : exn) :
  fst (func w) = Done (Raise e) ->
  slow_down func w = func w
  /\ now (snd (slow_down func w)) = now (snd (func w))
  /\ trace (snd (slow_down func w)) = trace (snd (func w)).
Proof.
  intros H. destruct (func w) as [r w1] eqn:Hrun. cbn [fst] in H. subst r.
  rewrite (slow_down_raise func w w1 e Hrun). repeat split.
Qed.

(** ** Further properties of the order operations *)

Lemma throttled_request_trace (self : FtxClient) (method : Method) (path : string)
      (params json : option dict) (w : World) :
  exists took reply tail,
    trace (snd (slow_down (_request self method path params json) w))
    = trace w ++ Http (now w) (wire self method path params json (now w)) took reply :: tail
    /\ (tail = [] \/ exists secs, tail = [Sleep secs]).
Proof.
  destruct (slow_down_trace (_request self method path params json) w)
    as [tail [Htrace Htail]].
  rewrite _request_run in Htrace. unfold exchanged in Htrace. cbn [snd trace] in Htrace.
  eexists _, _, tail. split; [| exact Htail].
  rewrite Htrace, <- app_assoc. reflexivity.
Qed.

Lemma given_is_given {A} (k : string) (f : A -> scalar) (o : option A) :
  (forall a, f a <> SNone) -> Forall (fun kv => snd kv <> SNone) (given k f o).
Proof. intros Hf. destruct o; repeat constructor. apply Hf. Qed.

(** X6: [modify_order] with one identifier and with both a price and a size
    raises the assertion error of its second check and sends nothing: the
    check lets a call through when the price or the size is left out. *)
Theorem modify_order_rejects_price_with_size (self : FtxClient)
        (existing_order_id existing_client_order_id : option string)
        (price size : Q) (client_order_id : option string) (w : World) :
  xorb (is_none existing_order_id) (is_none existing_client_order_id) = true ->
  modify_order self existing_order_id existing_client_order_id (Some price) (Some size)
               client_order_id w
  = (Done (Raise (AssertionError "Must modify price or size of order")), w).
Proof.
  intros Hone. unfold modify_order. apply slow_down_raise.
  unfold bind, py_assert. rewrite Hone. reflexivity.
Qed.

(** X7: [modify_order] with one identifier and without a price, a size or
    both goes through, also when neither is given: it sends one POST, to
    [orders/<id>/modify] when the order id is given and to
    [orders/by_client_id/<id>/modify] otherwise, whose JSON body holds the
    values that were given, in the order size, price, clientId, and no
    [null]. *)
Theorem modify_order_posts_what_is_given (self : FtxClient)
        (existing_order_id existing_client_order_id : option string)
        (price size : option Q) (client_order_id : option string) (w : World) :
  xorb (is_none existing_order_id) (is_none existing_client_order_id) = true ->
  is_none price || is_none size = true ->
  let path := match existing_order_id, existing_client_order_id with
              | Some id, _ => "orders/" +:+ id +:+ "/modify"
              | None, Some id => "orders/by_client_id/" +:+ id +:+ "/modify"
              | None, None => "orders/by_client_id/None/modify"
              end in
  let d := given "size" SFloat size ++ given "price" SFloat price
           ++ given "clientId" SStr client_order_id in
  let run := modify_order self existing_order_id existing_client_order_id price size
                          client_order_id w in
  Forall (fun kv => snd kv <> SNone) d
  /\ exists p took reply tail,
      trace (snd run) = trace w ++ Http (now w) p took reply :: tail
      /\ (tail = [] \/ exists secs, tail = [Sleep secs])
      /\ p_method p = "POST"
      /\ path_url p = "/api/" +:+ path
      /\ body p = Some (Text.utf8 (dumps d)).
Proof.
  intros Hone Hnot path d run. split.
  - subst d. repeat (apply Forall_app; split); apply given_is_given; discriminate.
  - assert (Hrun : run = slow_down (_post self path (Some d)) w).
    { subst run. unfold modify_order, slow_down, bind at 2, bind at 2, py_assert.
      rewrite Hone, Hnot. cbn [ret]. subst path.
      destruct existing_order_id as [id |]; [reflexivity |].
      destruct existing_client_order_id as [id |]; reflexivity. }
    rewrite Hrun. unfold _post.
    destruct (throttled_request_trace self POST path None (Some d) w)
      as [took [reply [tail [Htrace Htail]]]].
    eexists _, took, reply, tail. split; [exact Htrace |]. split; [exact Htail |].
    split; [reflexivity |].
    destruct (wire_body_request self POST path d (now w)) as [Hpath [Hbody _]].
    split; [exact Hpath | exact Hbody].
Qed.

(** X8: what [modify_conditional_order] refuses, each time without sending
    anything: an order type that is missing or not one of [stop],
    [takeProfit] and [trailingStop]; a trailing stop with neither a trail
    value nor a size; another order with neither a trigger price nor a
    size. *)
Theorem modify_conditional_order_refusals (self : FtxClient) (order_id : string)
        (order_type : option string) (triggerPrice trailValue size : option Q) (w : World) :
  let run := modify_conditional_order self order_id order_type triggerPrice trailValue
                                      size w in
  ((forall t, order_type = Some t -> one_of t ["stop"; "takeProfit"; "trailingStop"] = false) ->
   run = (Done (Raise (AssertionError "")), w))
  /\ (order_type = Some "trailingStop" -> trailValue = None -> size = None ->
      run = (Done (Raise (AssertionError
                            "trailingStop must modify trailValue or size of order")), w))
  /\ (order_type = Some "stop" \/ order_type = Some "takeProfit" ->
      triggerPrice = None -> size = None ->
      run = (Done (Raise (AssertionError
                            "Other than trailingStop must modify triggerPrice or size of order")),
             w)).
Proof.
  intros run. subst run. unfold modify_conditional_order. split; [| split].
  - intros Hkind. apply slow_down_raise. unfold bind, py_assert.
    destruct order_type as [t |]; [| reflexivity]. rewrite (Hkind t eq_refl). reflexivity.
  - intros -> -> ->. apply slow_down_raise. reflexivity.
  - intros [-> | ->] -> ->; apply slow_down_raise; reflexivity.
Qed.

Lemma one_of_kinds (t : string) :
  one_of t ["stop"; "takeProfit"; "trailingStop"]
  = one_of t ["stop"; "takeProfit"] || String.eqb t "trailingStop".
Proof.
  unfold one_of. cbn [existsb]. rewrite !orb_false_r, orb_assoc. reflexivity.
Qed.

Lemma not_both_kinds (t : string) :
  one_of t ["stop"; "takeProfit"] = true -> String.eqb t "trailingStop" = false.
Proof.
  unfold one_of. cbn [existsb]. rewrite orb_false_r. intros H.
  apply orb_true_iff in H as [H | H]; apply String.eqb_eq in H; subst t; reflexivity.
Qed.

(** X9: [place_conditional_order] checks before it sends, and its three
    assertions decide the call in their order.  An order type other than
    [stop], [takeProfit] and [trailingStop] fails the first, which has no
    message; a [stop] or a [takeProfit] without a trigger price fails the
    second; a [trailingStop] with a trigger price or without a trail value
    fails the third; each time nothing is sent.  A [stop] or a [takeProfit]
    with a trigger price is one POST of eight members, the trigger price
    among them and, last, [orderPrice], which is the limit price or, when
    none was given, [null].  A [trailingStop] with a trail value and no
    trigger price is one POST of seven members, the trail value among them
    and neither [triggerPrice] nor [orderPrice]: a limit price given with
    it is dropped. *)
Theorem place_conditional_order_validation (self : FtxClient) (market side : string)
        (size : Q) (order_type : string) (limit_price : option Q) (reduce_only cancel : bool)
        (triggerPrice trailValue : option Q) (w : World) :
  let run := place_conditional_order self market side size order_type limit_price
                                     reduce_only cancel triggerPrice trailValue w in
  let refused msg := run = (Done (Raise (AssertionError msg)), w) in
  let posted d :=
    run = slow_down (_post self "conditional_orders" (Some d)) w
    /\ exists p took reply tail,
        trace (snd run) = trace w ++ Http (now w) p took reply :: tail
        /\ (tail = [] \/ exists secs, tail = [Sleep secs])
        /\ p_method p = "POST"
        /\ path_url p = "/api/conditional_orders"
        /\ body p = Some (Text.utf8 (dumps d)) in
  if one_of order_type ["stop"; "takeProfit"]
  then match triggerPrice with
       | Some trigger =>
           posted [("market", SStr market);
                   ("side", SStr side);
                   ("triggerPrice", SFloat trigger);
                   ("size", SFloat size);
                   ("reduceOnly", SBool reduce_only);
                   ("type", SStr order_type);
                   ("cancelLimitOnTrigger", SBool cancel);
                   ("orderPrice", match limit_price with
                                  | Some limit => SFloat limit
                                  | None => SNone
                                  end)]
       | None => refused "Need trigger prices for stop losses and take profits"
       end
  else if String.eqb order_type "trailingStop"
  then match triggerPrice, trailValue with
       | None, Some trail =>
           posted [("market", SStr market);
                   ("side", SStr side);
                   ("trailValue", SFloat trail);
                   ("size", SFloat size);
                   ("reduceOnly", SBool reduce_only);
                   ("type", SStr order_type);
                   ("cancelLimitOnTrigger", SBool cancel)]
       | _, _ => refused "Trailing stops need a trail value and cannot take a trigger price"
       end
  else refused "".
Proof.
  intros run refused posted.
  assert (Hposted : forall d, run = slow_down (_post self "conditional_orders" (Some d)) w ->
                              posted d).
  { intros d Hrun. split; [exact Hrun |]. rewrite Hrun. unfold _post.
    destruct (throttled_request_trace self POST "conditional_orders" None (Some d) w)
      as [took [reply [tail [Htrace Htail]]]].
    eexists _, took, reply, tail. split; [exact Htrace |]. split; [exact Htail |].
    split; [reflexivity |].
    destruct (wire_body_request self POST "conditional_orders" d (now w)) as [Hpath [Hbody _]].
    split; [exact Hpath | exact Hbody]. }
  subst refused. cbv beta. clearbody posted. subst run.
  unfold place_conditional_order in *. rewrite one_of_kinds in *.
  change (one_of order_type ["trailingStop"])
    with (String.eqb order_type "trailingStop" || false) in *.
  rewrite orb_false_r in *.
  destruct (one_of order_type ["stop"; "takeProfit"]) eqn:Htrig.
  - rewrite (not_both_kinds _ Htrig) in *. cbn [orb andb negb] in *.
    destruct triggerPrice as [trigger |]; cbn [is_none negb orb andb].
    + apply Hposted. destruct limit_price; reflexivity.
    + apply slow_down_raise. reflexivity.
  - destruct (String.eqb order_type "trailingStop") eqn:Htrail; cbn [orb andb negb] in *.
    + destruct triggerPrice as [trigger |]; cbn [is_none negb orb andb].
      * destruct trailValue; apply slow_down_raise; reflexivity.
      * destruct trailValue as [trail |]; cbn [is_none negb].
        -- apply Hposted. reflexivity.
        -- apply slow_down_raise. reflexivity.
    + apply slow_down_raise. reflexivity.
Qed.

(** ** Further properties of the position lookup *)

Lemma get_positions_run (self : FtxClient) (show_avg_price : bool) (w : World) :
  let p := wire self GET "positions" (Some [("showAvgPrice", SBool show_avg_price)]) None
                (now w) in
  let took := fst (server (length (https (trace w))) p) in
  let reply := snd (server (length (https (trace w))) p) in
  let w1 := exchanged p w in
  get_positions self show_avg_price w
  = match answer reply with
    | Return v =>
        (Done (Return v),
         if Qlt_le_dec (now w1 - now w) floor
         then {| now := now w1 + (floor - (now w1 - now w));
                 trace := trace w1 ++ [Sleep (floor - (now w1 - now w))] |}
         else w1)
    | Raise e => (Done (Raise e), w1)
    end.
Proof.
  intros p took reply w1. unfold get_positions, _get.
  pose proof (_request_run self GET "positions"
                (Some [("showAvgPrice", SBool show_avg_price)]) None w) as Hrun.
  cbv zeta in Hrun. fold p in Hrun. fold reply in Hrun. fold w1 in Hrun.
  destruct (answer reply) as [v | e].
  - apply slow_down_return, Hrun.
  - apply slow_down_raise, Hrun.
Qed.


(** X11: the two throttles of [get_position], its own and the one of
    [get_positions] inside it, do not add up.  Whatever the exchange
    replies, the call sends one request, for [positions] with
    [showAvgPrice] written as Python writes a [bool], and sleeps at most
    once, after it; and when it returns it has lasted the floor if the
    round trip was shorter, and the round trip otherwise. *)
Theorem get_position_is_throttled_once (self : FtxClient) (name : string)
        (show_avg_price : bool) (w : World) :
  let run := get_position self name show_avg_price w in
  exists p took reply tail,
    trace (snd run) = trace w ++ Http (now w) p took reply :: tail
    /\ (tail = [] \/ exists secs, tail = [Sleep secs])
    /\ p_method p = "GET"
    /\ path_url p = "/api/positions?showAvgPrice="
                    +:+ (if show_avg_price then "True" else "False")
    /\ (forall x, fst run = Done (Return x) ->
                  ((took < floor)%Q -> (now (snd run) - now w == floor)%Q)
                  /\ ((floor <= took)%Q -> (now (snd run) - now w == took)%Q)).
Proof.
  intros run. subst run.
  set (p := wire self GET "positions" (Some [("showAvgPrice", SBool show_avg_price)]) None
                 (now w)).
  set (took := fst (server (length (https (trace w))) p)).
  set (reply := snd (server (length (https (trace w))) p)).
  assert (Hpath : path_url p = "/api/positions?showAvgPrice="
                               +:+ (if show_avg_price then "True" else "False"))
    by (destruct show_avg_price; reflexivity).
  pose proof (get_positions_run self show_avg_price w) as Hinner. cbv zeta in Hinner.
  fold p in Hinner. fold reply in Hinner.
  assert (Hnow : now (exchanged p w) = (now w + took)%Q) by reflexivity.
  assert (Htrace : trace (exchanged p w) = trace w ++ [Http (now w) p took reply])
    by reflexivity.
  unfold get_position.
  destruct (answer reply) as [v | e].
  - set (w1 := if Qlt_le_dec (now (exchanged p w) - now w) floor
               then {| now := now (exchanged p w) + (floor - (now (exchanged p w) - now w));
                       trace := trace (exchanged p w)
                                ++ [Sleep (floor - (now (exchanged p w) - now w))] |}
               else exchanged p w) in *.
    assert (Hfloor : (floor <= now w1 - now w)%Q).
    { subst w1. destruct (Qlt_le_dec (now (exchanged p w) - now w) floor); cbn [now]; lra. }
    assert (Htail : exists tail, trace w1 = trace w ++ Http (now w) p took reply :: tail
                                 /\ (tail = [] \/ exists secs, tail = [Sleep secs])).
    { subst w1. destruct (Qlt_le_dec (now (exchanged p w) - now w) floor); cbn [trace].
      - eexists. rewrite Htrace, <- app_assoc. split; [reflexivity |].
        right. eexists. reflexivity.
      - exists []. split; [exact Htrace | left; reflexivity]. }
    assert (Hlast : (took < floor -> now w1 - now w == floor)%Q
                    /\ (floor <= took -> now w1 - now w == took)%Q).
    { subst w1. rewrite Hnow.
      destruct (Qlt_le_dec (now w + took - now w) floor); cbn [now]; rewrite ?Hnow;
        split; intros; lra. }
    destruct Htail as [tail [Htail Hshape]].
    destruct (obind (iter v) (first_position name)) as [x | e] eqn:Hfind.
    + assert (Hbody : (let* positions := get_positions self show_avg_price in
                       let* entries := lift (iter positions) in
                       lift (first_position name entries)) w = (Done (Return x), w1)).
      { unfold bind, lift. rewrite Hinner. destruct (iter v); [| discriminate Hfind].
        cbn [obind] in Hfind. rewrite Hfind. reflexivity. }
      rewrite (slow_down_return _ _ _ _ Hbody).
      destruct (Qlt_le_dec (now w1 - now w) floor) as [Hlt | _]; [exfalso; lra |].
      cbn [fst snd]. exists p, took, reply, tail.
      split; [exact Htail |]. split; [exact Hshape |]. split; [reflexivity |].
      split; [exact Hpath |]. intros _ _. exact Hlast.
    + assert (Hbody : (let* positions := get_positions self show_avg_price in
                       let* entries := lift (iter positions) in
                       lift (first_position name entries)) w = (Done (Raise e), w1)).
      { unfold bind, lift. rewrite Hinner. destruct (iter v); cbn [obind] in Hfind.
        - rewrite Hfind. reflexivity.
        - injection Hfind as ->. reflexivity. }
      rewrite (slow_down_raise _ _ _ _ Hbody). cbn [fst snd].
      exists p, took, reply, tail.
      split; [exact Htail |]. split; [exact Hshape |]. split; [reflexivity |].
      split; [exact Hpath |]. intros x Hx. discriminate Hx.
  - assert (Hbody : (let* positions := get_positions self show_avg_price in
                     let* entries := lift (iter positions) in
                     lift (first_position name entries)) w
                    = (Done (Raise e), exchanged p w)).
    { unfold bind. rewrite Hinner. reflexivity. }
    rewrite (slow_down_raise _ _ _ _ Hbody). cbn [fst snd].
    exists p, took, reply, []. split; [exact Htrace |]. split; [left; reflexivity |].
    split; [reflexivity |]. split; [exact Hpath |]. intros x Hx. discriminate Hx.
Qed.

(** ** Further properties of the aggregation *)

Lemma https_app (a b : list event) : https (a ++ b) = https a ++ https b.
Proof. unfold https. apply filter_app. Qed.

Lemma https_exchanged (p : PreparedRequest) (w : World) :
  length (https (trace (exchanged p w))) = S (length (https (trace w))).
Proof.
  unfold exchanged. cbn [trace]. rewrite https_snoc_http, length_app. simpl. lia.
Qed.

Lemma dedupe_has_id (ids : gset hkey) (page : list value) :
  Forall has_id page ->
  dedupe ids page = Return (filter (fun r => is_fresh ids r = true) page).
Proof.
  induction 1 as [| r page [k Hk] _ IH]; [reflexivity |].
  assert (Hf : is_fresh ids r = bool_decide (k ∉ ids))
    by (unfold is_fresh; rewrite Hk; reflexivity).
  cbn [dedupe]. rewrite unseen_the_id, Hk, IH. cbn [obind].
  rewrite filter_cons, <- Hf.
  destruct (decide (is_fresh ids r = true)) as [Hyes | Hno].
  - rewrite Hyes. reflexivity.
  - apply not_true_is_false in Hno. rewrite Hno. reflexivity.
Qed.

Lemma turn_page_failed_reply (ids : gset hkey) (results : list value)
      (reply : exn + Response) (err : exn) :
  page_of reply = Raise err -> turn_page ids results reply = Fail false err.
Proof. intros H. unfold turn_page. rewrite H. reflexivity. Qed.

Lemma turn_page_bad_time (ids : gset hkey) (results : list value)
      (reply : exn + Response) (page : list value) (err : exn) :
  page_of reply = Return page -> Forall has_id page -> page <> [] ->
  earliest page = Raise err ->
  turn_page ids results reply = Fail true err.
Proof.
  intros Hpage Hids Hne Hbad. unfold turn_page. rewrite Hpage.
  rewrite dedupe_has_id by exact Hids.
  rewrite id_set_has_ids by (apply Forall_has_id_filter, Hids).
  destruct page as [| r page]; [congruence |]. cbn [length Nat.eqb]. rewrite Hbad.
  reflexivity.
Qed.

(** The loop on [K] full pages followed by a page on which the turn fails. *)
Lemma loop_fails_on_the_page (self : FtxClient) (market : string) (start_time : option Q)
      (err : exn) (K : nat) :
  forall (fuel : nat) (end_time : option Q) (ids : gset hkey) (results : list value)
         (w : World),
    (forall k p, (k < K)%nat -> full_page (snd (server (length (https (trace w)) + k) p))) ->
    (forall p ids' results',
        exists printed,
          turn_page ids' results' (snd (server (length (https (trace w)) + K) p))
          = Fail printed err) ->
    (K < fuel)%nat ->
    exists w',
      get_all_trades_loop fuel self market start_time end_time ids results w
      = (Done (Raise err), w')
      /\ length (https (trace w')) = (length (https (trace w)) + K + 1)%nat.
Proof.
  induction K as [| K IH]; intros fuel end_time ids results w Hfull Hfail Hfuel;
    (destruct fuel as [| fuel]; [lia |]); rewrite loop_turn.
  - destruct (Hfail (page_request self market start_time end_time (now w)) ids results)
      as [printed Hturn].
    rewrite Nat.add_0_r in Hturn. rewrite Hturn.
    destruct printed; eexists; (split; [reflexivity |]).
    + rewrite https_turn. lia.
    + rewrite https_exchanged. lia.
  - pose proof (Hfull 0%nat (page_request self market start_time end_time (now w))
                      ltac:(lia)) as Hfirst.
    rewrite Nat.add_0_r in Hfirst.
    destruct (turn_page_full ids results _ Hfirst) as [cursor [seen [all Hnext]]].
    rewrite Hnext.
    match goal with
    | |- context [get_all_trades_loop fuel _ _ _ _ _ _ ?w2] =>
        destruct (IH fuel (Some cursor) seen all w2) as [w' [Hrun Hcount]]
    end.
    + intros k p Hk. rewrite https_turn. replace (S _ + k)%nat with
        (length (https (trace w)) + S k)%nat by lia. apply Hfull. lia.
    + intros p ids' results'. rewrite https_turn. replace (S _ + K)%nat with
        (length (https (trace w)) + S K)%nat by lia. apply Hfail.
    + lia.
    + exists w'. split; [exact Hrun |]. rewrite Hcount, https_turn. lia.
Qed.

Lemma get_all_trades_fails_on_the_page (self : FtxClient) (market : string)
      (start_time end_time : option Q) (w : World) (K : nat) (err : exn) :
  (forall k p, (k < K)%nat -> full_page (snd (server (length (https (trace w)) + k) p))) ->
  (forall p ids' results',
      exists printed,
        turn_page ids' results' (snd (server (length (https (trace w)) + K) p))
        = Fail printed err) ->
  forall fuel, (K < fuel)%nat ->
  exists w' new,
    get_all_trades fuel self market start_time end_time w = (Done (Raise err), w')
    /\ trace w' = trace w ++ new
    /\ length (https new) = S K
    /\ back_to_back (now w) new.
Proof.
  intros Hfull Hfail fuel Hfuel.
  destruct (loop_fails_on_the_page self market start_time err K fuel end_time ∅ [] w
              Hfull Hfail Hfuel) as [w' [Hrun Hcount]].
  destruct (loop_back_to_back self market start_time fuel end_time ∅ [] w)
    as [new [Htrace Hchain]].
  rewrite Hrun in Htrace. cbn [snd] in Htrace.
  exists w', new. split; [apply slow_down_raise, Hrun |]. split; [exact Htrace |].
  split; [| exact Hchain].
  rewrite Htrace, https_app, length_app in Hcount. lia.
Qed.

(** X12: the aggregation gives up on the first page it cannot get.  When
    [K] full pages are followed by a reply that carries no page (the
    transport failed, the envelope reports an error, the result cannot be
    iterated), [get_all_trades] raises the exception of that reply after
    [K + 1] requests: what was gathered is lost, nothing is retried, and
    nothing sleeps, not even the throttle. *)
Theorem get_all_trades_gives_up_on_a_failed_page (self : FtxClient) (market : string)
        (start_time end_time : option Q) (w : World) (K : nat) (err : exn) :
  let n := length (https (trace w)) in
  (forall k p, (k < K)%nat -> full_page (snd (server (n + k) p))) ->
  (forall p, page_of (snd (server (n + K) p)) = Raise err) ->
  forall fuel, (K < fuel)%nat ->
  exists w' new,
    get_all_trades fuel self market start_time end_time w = (Done (Raise err), w')
    /\ trace w' = trace w ++ new
    /\ length (https new) = S K
    /\ back_to_back (now w) new.
Proof.
  intros n Hfull Hfail. apply get_all_trades_fails_on_the_page; [exact Hfull |].
  intros p ids' results'. exists false. apply turn_page_failed_reply, Hfail.
Qed.

(** X13: a [time] that does not parse spoils the whole aggregation, on the
    last page too.  When [K] full pages are followed by a page, short or
    not, whose records have identifiers but among whose times one cannot be
    read, [get_all_trades] raises that error after [K + 1] requests instead
    of returning the records it holds. *)
Theorem get_all_trades_gives_up_on_a_bad_time (self : FtxClient) (market : string)
        (start_time end_time : option Q) (w : World) (K : nat) (err : exn) :
  let n := length (https (trace w)) in
  (forall k p, (k < K)%nat -> full_page (snd (server (n + k) p))) ->
  (forall p, exists page,
        page_of (snd (server (n + K) p)) = Return page
        /\ Forall has_id page /\ page <> [] /\ earliest page = Raise err) ->
  forall fuel, (K < fuel)%nat ->
  exists w' new,
    get_all_trades fuel self market start_time end_time w = (Done (Raise err), w')
    /\ trace w' = trace w ++ new
    /\ length (https new) = S K
    /\ back_to_back (now w) new.
Proof.
  intros n Hfull Hbad. apply get_all_trades_fails_on_the_page; [exact Hfull |].
  intros p ids' results'. destruct (Hbad p) as [page [Hpage [Hids [Hne Herr]]]].
  exists true. apply (turn_page_bad_time ids' results' _ page err); assumption.
Qed.

(** X14: the loop has no bound of its own.  Against an exchange that
    answers every request with a full page, [get_all_trades] is still
    running after any number of requests: with fuel for [fuel] pages it has
    sent [fuel] requests and has not returned. *)
Theorem get_all_trades_never_ends_on_full_pages (self : FtxClient) (market : string)
        (start_time end_time : option Q) :
  (forall n p, full_page (snd (server n p))) ->
  forall (fuel : nat) (w : World),
  exists w',
    get_all_trades fuel self market start_time end_time w = (Unfinished, w')
    /\ length (https (trace w')) = (length (https (trace w)) + fuel)%nat.
Proof.
  intros Hfull fuel w. unfold get_all_trades.
  assert (Hloop : forall fuel cursor ids results w0,
             exists w',
               get_all_trades_loop fuel self market start_time cursor ids results w0
               = (Unfinished, w')
               /\ length (https (trace w')) = (length (https (trace w0)) + fuel)%nat).
  { clear fuel w. induction fuel as [| fuel IH]; intros cursor ids results w0.
    - exists w0. split; [reflexivity | lia].
    - rewrite loop_turn.
      destruct (turn_page_full ids results _
                  (Hfull (length (https (trace w0)))
                         (page_request self market start_time cursor (now w0))))
        as [next [seen [all Hnext]]].
      rewrite Hnext.
      match goal with
      | |- context [get_all_trades_loop fuel _ _ _ ?e ?i ?r ?w2] =>
          destruct (IH e i r w2) as [w' [Hrun Hcount]]
      end.
      exists w'. split; [exact Hrun |]. rewrite Hcount, https_turn. lia. }
  destruct (Hloop fuel end_time ∅ [] w) as [w' [Hrun Hcount]].
  exists w'. split; [apply slow_down_unfinished, Hrun | exact Hcount].
Qed.

Lemma extend_ids (ids : gset hkey) (results page : list value) :
  ids = list_to_set (identifiers results) ->
  Forall has_id page ->
  let kept := filter (fun r => is_fresh ids r = true) page in
  ids ∪ list_to_set (identifiers kept) = list_to_set (identifiers (results ++ kept))
  /\ (list_to_set (identifiers (results ++ kept)) : gset hkey)
     = list_to_set (identifiers results) ∪ list_to_set (identifiers page).
Proof.
  intros -> Hids kept. rewrite identifiers_app, list_to_set_app_L.
  split; [reflexivity |]. apply set_eq. intros k.
  rewrite !elem_of_union, !elem_of_list_to_set. split.
  - intros [Hin | Hin]; [left; exact Hin |]. right.
    apply elem_of_identifiers in Hin as [r [Hr Hk]]. apply elem_of_identifiers.
    exists r. split; [| exact Hk]. subst kept. rewrite list_elem_of_filter in Hr. apply Hr.
  - intros [Hin | Hin]; [left; exact Hin |].
    destruct (decide (k ∈ identifiers results)) as [Hold | Hnew]; [left; exact Hold |].
    right. apply elem_of_identifiers in Hin as [r [Hr Hk]]. apply elem_of_identifiers.
    exists r. split; [| exact Hk]. subst kept. rewrite list_elem_of_filter.
    split; [| exact Hr]. unfold is_fresh. rewrite Hk. apply bool_decide_eq_true.
    rewrite elem_of_list_to_set. exact Hnew.
Qed.

Lemma loop_results_follow_the_pages (self : FtxClient) (market : string)
      (start_time : option Q) :
  forall (fuel : nat) (end_time : option Q) (ids : gset hkey) (results : list value)
         (w : World) (all : list value) (w' : World),
    ids = list_to_set (identifiers results) ->
    get_all_trades_loop fuel self market start_time end_time ids results w
    = (Done (Return all), w') ->
    exists new added,
      trace w' = trace w ++ new
      /\ all = results ++ added
      /\ added `sublist_of` concat (fetched new)
      /\ (list_to_set (identifiers all) : gset hkey)
         = list_to_set (identifiers results) ∪ list_to_set (identifiers (concat (fetched new))).
Proof.
  induction fuel as [| fuel IH];
    intros end_time ids results w all w' Hseen Hrun; [discriminate Hrun |].
  rewrite loop_turn in Hrun.
  destruct (turn_page ids results _) as [printed e | last | cursor seen mid] eqn:Hturn.
  - destruct printed; discriminate Hrun.
  - injection Hrun as <- <-.
    apply turn_page_last in Hturn as [page [Hpage [Hpids [-> _]]]].
    destruct (extend_ids ids results page Hseen Hpids) as [_ Hset].
    eexists _, _. split; [apply trace_turn |]. split; [reflexivity |].
    cbn [fetched]. rewrite Hpage. cbn [fetched concat]. rewrite app_nil_r.
    split; [apply sublist_filter | exact Hset].
  - apply turn_page_next in Hturn
      as [page [d [Hpage [Hpids [-> [-> [_ [_ [_ _]]]]]]]]].
    destruct (extend_ids ids results page Hseen Hpids) as [Hseen' Hset].
    apply IH in Hrun as [new [added [Htrace [-> [Hsub Hset']]]]]; [| exact Hseen'].
    eexists _, _. split; [rewrite Htrace, trace_turn, <- app_assoc; reflexivity |].
    split; [rewrite <- app_assoc; reflexivity |].
    cbn [app fetched]. rewrite Hpage. cbn [fetched concat].
    split; [apply sublist_app; [apply sublist_filter | exact Hsub] |].
    rewrite Hset', Hset, identifiers_app, list_to_set_app_L. apply set_eq. intros k.
    rewrite !elem_of_union. tauto.
Qed.

(** X15: what [get_all_trades] returns comes from the pages and covers
    them, whatever the pages hold: the result is a selection of the records
    of the pages fetched, in the order of the pages and, within a page, in
    the order of the page, and every identifier met on a page is the
    identifier of some record of the result. *)
Theorem returned_trades_follow_the_pages (fuel : nat) (self : FtxClient) (market : string)
        (start_time end_time : option Q) (w : World) (all : list value) (w' : World) :
  get_all_trades fuel self market start_time end_time w = (Done (Return all), w') ->
  exists new,
    trace w' = trace w ++ new
    /\ all `sublist_of` concat (fetched new)
    /\ (list_to_set (identifiers all) : gset hkey)
       = list_to_set (identifiers (concat (fetched new))).
Proof.
  intros Hrun. unfold get_all_trades in Hrun.
  destruct (get_all_trades_loop fuel self market start_time end_time ∅ [] w)
    as [[[mid | e] |] w1] eqn:Hloop.
  - rewrite (slow_down_return _ _ _ _ Hloop) in Hrun. injection Hrun as <- Hw'.
    apply (loop_results_follow_the_pages self market start_time) in Hloop
        as [new [added [Htrace [-> [Hsub Hset]]]]]; [| reflexivity].
    assert (Hset' : (list_to_set (identifiers ([] ++ added)) : gset hkey)
                    = list_to_set (identifiers (concat (fetched new)))).
    { rewrite Hset. simpl. apply set_eq. intros k. rewrite elem_of_union, elem_of_empty.
      tauto. }
    destruct (Qlt_le_dec (now w1 - now w) floor); subst w'; cbn [trace].
    + exists (new ++ [Sleep (floor - (now w1 - now w))]).
      rewrite Htrace, <- app_assoc, fetched_app. cbn [fetched]. rewrite app_nil_r.
      split; [reflexivity |]. split; [exact Hsub | exact Hset'].
    + exists new. split; [exact Htrace |]. split; [exact Hsub | exact Hset'].
  - rewrite (slow_down_raise _ _ _ _ Hloop) in Hrun. discriminate Hrun.
  - rewrite (slow_down_unfinished _ _ _ Hloop) in Hrun. discriminate Hrun.
Qed.

Lemma shown_app (a b : list event) : shown (a ++ b) = shown a ++ shown b.
Proof. apply omap_app. Qed.

Lemma shown_turn (start took : Q) (p : PreparedRequest) (reply : exn + Response)
      (line : string) (later : list event) :
  shown (Http start p took reply :: Print line :: later) = line :: shown later.
Proof. reflexivity. Qed.

Lemma loop_progress_lines (self : FtxClient) (market : string) (start_time : option Q) :
  forall (fuel : nat) (end_time : option Q) (ids : gset hkey) (results : list value)
         (w : World) (all : list value) (w' : World),
    get_all_trades_loop fuel self market start_time end_time ids results w
    = (Done (Return all), w') ->
    exists new,
      trace w' = trace w ++ new
      /\ shown new = progress_lines end_time (fetched new)
      /\ length (fetched new) = length (https new).
Proof.
  induction fuel as [| fuel IH];
    intros end_time ids results w all w' Hrun; [discriminate Hrun |].
  rewrite loop_turn in Hrun.
  destruct (turn_page ids results _) as [printed e | last | cursor seen mid] eqn:Hturn.
  - destruct printed; discriminate Hrun.
  - injection Hrun as <- <-.
    apply turn_page_last in Hturn as [page [Hpage _]].
    eexists. split; [apply trace_turn |].
    rewrite shown_turn. cbn [fetched]. unfold page_line. rewrite Hpage.
    split; reflexivity.
  - apply turn_page_next in Hturn as [page [d [Hpage [_ [_ [_ [_ [Hd [-> _]]]]]]]]].
    apply IH in Hrun as [new [Htrace [Hlines Hcount]]].
    eexists. split; [rewrite Htrace, trace_turn, <- app_assoc; reflexivity |].
    cbn [app]. rewrite shown_turn. cbn [fetched]. unfold page_line. rewrite Hpage.
    cbn [fetched progress_lines]. rewrite Hd, Hlines.
    split; [reflexivity |]. rewrite https_turn_cons. cbn [length]. rewrite Hcount.
    reflexivity.
Qed.

(** X16: [get_all_trades] reports its progress with one line for each
    request, printed after the page was merged.  The count in the line is
    the length of the page as the exchange sent it, not the number of
    records that were new, and the end time in it is the cursor the request
    for that page was sent with: the [end_time] argument on the first line
    ([None] when there was none), the earliest instant of the page before
    on the others. *)
Theorem get_all_trades_reports_each_page (fuel : nat) (self : FtxClient) (market : string)
        (start_time end_time : option Q) (w : World) (all : list value) (w' : World) :
  get_all_trades fuel self market start_time end_time w = (Done (Return all), w') ->
  exists new,
    trace w' = trace w ++ new
    /\ shown new = progress_lines end_time (fetched new)
    /\ length (shown new) = length (https new).
Proof.
  intros Hrun. unfold get_all_trades in Hrun.
  destruct (get_all_trades_loop fuel self market start_time end_time ∅ [] w)
    as [[[mid | e] |] w1] eqn:Hloop.
  - rewrite (slow_down_return _ _ _ _ Hloop) in Hrun. injection Hrun as <- Hw'.
    apply loop_progress_lines in Hloop as [new [Htrace [Hlines Hcount]]].
    assert (Hlen : length (shown new) = length (https new)).
    { rewrite Hlines, <- Hcount. clear. generalize end_time.
      induction (fetched new) as [| page later IH]; intros cursor; [reflexivity |].
      cbn [progress_lines length]. rewrite IH. reflexivity. }
    destruct (Qlt_le_dec (now w1 - now w) floor); subst w'; cbn [trace].
    + exists (new ++ [Sleep (floor - (now w1 - now w))]).
      rewrite Htrace, <- app_assoc, fetched_app, shown_app, https_snoc_sleep.
      cbn [fetched shown omap]. rewrite !app_nil_r.
      split; [reflexivity |]. split; [exact Hlines | exact Hlen].
    + exists new. split; [exact Htrace |]. split; [exact Hlines | exact Hlen].
  - rewrite (slow_down_raise _ _ _ _ Hloop) in Hrun. discriminate Hrun.
  - rewrite (slow_down_unfinished _ _ _ Hloop) in Hrun. discriminate Hrun.
Qed.

End Client.

(** ** The properties on sample runs *)

(** C1 fails as it is stated: a POST with the parameters [{a: 1, b: None}]
    sends the body [{"a": 1, "b": null}]: the parameter [b] is in the
    body, which is not the body of the mapping without it. *)
Lemma null_parameter_is_sent_in_the_body :
  let d := [("a", SInt 1); ("b", SNone)] in
  let q := String dquote "" in
  exists p took reply,
    trace (snd (_post Sample.repr Sample.quiet Sample.me "orders" (Some d) Sample.dawn))
    = [Http (now Sample.dawn) p took reply]
    /\ body p = Some ("{" +:+ q +:+ "a" +:+ q +:+ ": 1, " +:+ q +:+ "b" +:+ q +:+ ": null}")
    /\ body p <> Some (Text.utf8 (dumps Sample.repr (strip d))).
Proof.
  intros d q. unfold _post. rewrite _request_run. unfold exchanged. simpl trace.
  eexists _, _, _. split; [reflexivity |]. split.
  - vm_compute. reflexivity.
  - vm_compute. discriminate.
Qed.

(** C2 fails as it is stated: with an exchange that answers in a
    millisecond, the two page requests of one aggregation start a millisecond
    apart, far below the floor; the only sleep comes after the last page. *)
Lemma page_requests_are_not_spaced :
  match trace (snd (get_all_trades Sample.repr Sample.parse Sample.busy 5 Sample.me
                                   "BTC-PERP" None None Sample.dawn)) with
  | [Http t1 _ _ _; Print _; Http t2 _ _ _; Print _; Sleep _] =>
      (t2 - t1 == 0.001)%Q /\ (t2 - t1 < floor)%Q
  | _ => False
  end.
Proof. vm_compute. split; reflexivity. Qed.

(** The condition of C3 on the pages is needed: the seen set is brought up
    to date once a page, after the page was filtered, so that a page that
    held the identifier 7 twice would put both records into the result. *)
Lemma repeated_id_in_a_page_is_kept_twice :
  let all := [Sample.trade 7 11000.5; Sample.trade 7 11001.5] in
  fst (get_all_trades Sample.repr Sample.parse Sample.stutter 5 Sample.me
                      "BTC-PERP" None None Sample.dawn)
  = Done (Return all)
  /\ identifiers all = [KNum 7 1; KNum 7 1]
  /\ ~ NoDup (identifiers all).
Proof.
  intros all. split; [vm_compute; reflexivity |]. split; [reflexivity |].
  intros H. apply NoDup_cons in H as [H _]. apply H. left.
Qed.

(** C8 fails as it is stated, for a wrapped call that raises: the exchange
    refuses [get_account_info] after a millisecond, and the wrapper is left
    a millisecond after it was entered, well below the floor, without
    having slept. *)
Lemma refused_account_call_is_not_padded :
  let run := get_account_info Sample.repr Sample.refusing Sample.me Sample.dawn in
  fst run = Done (Raise (Exception (VStr "Not logged in")))
  /\ (now (snd run) - now Sample.dawn == 0.001)%Q
  /\ (now (snd run) - now Sample.dawn < floor)%Q
  /\ match trace (snd run) with
     | [Http _ _ _ _] => True
     | _ => False
     end.
Proof. vm_compute. repeat split. Qed.

(** C8 on a sample call: the exchange answers [list_markets] in a
    millisecond, and the throttle then sleeps for what is left of the floor. *)
Lemma list_markets_is_padded :
  let func := _get Sample.repr Sample.quiet Sample.me "markets" None in
  let w1 := snd (func Sample.dawn) in
  func Sample.dawn = (Done (Return (VList [])), w1)
  /\ exists w2,
      list_markets Sample.repr Sample.quiet Sample.me Sample.dawn = (Done (Return (VList [])), w2)
      /\ trace w2 = trace w1 ++ [Sleep (floor - (now w1 - now Sample.dawn))]
      /\ (floor - (now w1 - now Sample.dawn) == 0.049)%Q
      /\ (now w2 == now Sample.dawn + floor)%Q.
Proof.
  intros func w1.
  assert (H : func Sample.dawn = (Done (Return (VList [])), w1)) by reflexivity.
  split; [exact H |].
  pose proof (slow_down_pads_after_the_call func Sample.dawn) as Hcall.
  cbv zeta in Hcall. rewrite H in Hcall. cbn [fst snd] in Hcall.
  destruct Hcall as [w2 [Hrun [Hpad _]]].
  exists w2. split; [exact Hrun |].
  destruct Hpad as [Htrace [_ Hnow]]; [vm_compute; reflexivity |].
  split; [exact Htrace |]. split; [vm_compute; reflexivity | exact Hnow].
Defined.

(** C9 on a sample call: both identifiers are given. *)
Lemma modify_order_with_both_ids :
  is_none (Some "4711") = is_none (Some "mine")
  /\ modify_order Sample.repr Sample.quiet Sample.me (Some "4711") (Some "mine")
                  (Some 11000.5%Q) None None Sample.dawn
     = (Done (Raise (AssertionError "Must supply exactly one ID for the order to modify")),
        Sample.dawn).
Proof.
  split; [reflexivity |].
  apply (modify_order_needs_exactly_one_id Sample.repr Sample.quiet Sample.me
           (Some "4711") (Some "mine") (Some 11000.5%Q) None None Sample.dawn).
  reflexivity.
Defined.

(** C6 on the sample envelopes of the specification. *)
Lemma envelopes_unwrapped :
  let good := {| status_code := 200;
                 decoded := Some (VDict [("success", VBool true);
                                         ("result", VDict [("x", VInt 1)])]) |} in
  let bad := {| status_code := 400;
                decoded := Some (VDict [("success", VBool false);
                                        ("error", VStr "bad request")]) |} in
  let broken := {| status_code := 502; decoded := None |} in
  _process_response good Sample.dawn = (Done (Return (VDict [("x", VInt 1)])), Sample.dawn)
  /\ _process_response bad Sample.dawn
     = (Done (Raise (Exception (VStr "bad request"))), Sample.dawn)
  /\ _process_response broken Sample.dawn = (Done (Raise (HTTPError 502)), Sample.dawn).
Proof.
  intros good bad broken. split; [| split].
  - apply (proj1 (_process_response_unwraps good Sample.dawn)
             [("success", VBool true); ("result", VDict [("x", VInt 1)])]); reflexivity.
  - apply (proj1 (proj2 (_process_response_unwraps bad Sample.dawn))
             [("success", VBool false); ("error", VStr "bad request")]); reflexivity.
  - apply (proj2 (proj2 (_process_response_unwraps broken Sample.dawn))). reflexivity.
Defined.

(** C10 on a sample book of three positions: the first of the two positions
    in [ETH-PERP] is returned, and [None] for a future that is not held. *)
Lemma positions_looked_up :
  let w1 := snd (get_positions Sample.repr Sample.holding Sample.me false Sample.dawn) in
  get_positions Sample.repr Sample.holding Sample.me false Sample.dawn
  = (Done (Return (VList Sample.book)), w1)
  /\ (exists w2, get_position Sample.repr Sample.holding Sample.me "ETH-PERP" false Sample.dawn
                 = (Done (Return (Sample.position "ETH-PERP" 2)), w2))
  /\ (exists w2, get_position Sample.repr Sample.holding Sample.me "SOL-PERP" false Sample.dawn
                 = (Done (Return VNone), w2)).
Proof.
  intros w1.
  assert (H : get_positions Sample.repr Sample.holding Sample.me false Sample.dawn
              = (Done (Return (VList Sample.book)), w1)) by reflexivity.
  split; [exact H |]. split.
  - apply (proj2 (get_position_first_or_none Sample.repr Sample.holding Sample.me "ETH-PERP"
                    false Sample.dawn w1 Sample.book H)
             [Sample.position "BTC-PERP" 1.5] (Sample.position "ETH-PERP" 2)
             [Sample.position "ETH-PERP" 3]).
    + reflexivity.
    + repeat constructor. eexists. split; [reflexivity | discriminate].
    + reflexivity.
  - apply (proj1 (get_position_first_or_none Sample.repr Sample.holding Sample.me "SOL-PERP"
                    false Sample.dawn w1 Sample.book H)).
    repeat constructor; eexists; (split; [reflexivity | discriminate]).
Defined.

(** C5 on a sample market: the first reply is a full page and the second a
    page of 37 records, so the aggregation is unfinished after one request
    and returns after exactly two, with the hundred records of the first
    page and, of the second, the 36 that were not on the first. *)
Lemma busy_market_takes_two_requests :
  (forall k p, (k < 1)%nat -> full_page Sample.parse (snd (Sample.busy (0 + k) p)))
  /\ (forall p, short_page Sample.parse (snd (Sample.busy (0 + 1) p)))
  /\ (forall fuel, (fuel <= 1)%nat ->
        exists w', get_all_trades Sample.repr Sample.parse Sample.busy fuel Sample.me
                                  "BTC-PERP" None None Sample.dawn = (Unfinished, w'))
  /\ (forall fuel, (1 < fuel)%nat ->
        exists all w',
          get_all_trades Sample.repr Sample.parse Sample.busy fuel Sample.me
                         "BTC-PERP" None None Sample.dawn = (Done (Return all), w')
          /\ length (https (trace w')) = 2%nat)
  /\ exists all w' new,
      get_all_trades Sample.repr Sample.parse Sample.busy 5 Sample.me
                     "BTC-PERP" None None Sample.dawn = (Done (Return all), w')
      /\ trace w' = trace Sample.dawn ++ new
      /\ fetched new = [Sample.first_page; Sample.second_page]
      /\ all = gathered ∅ (fetched new)
      /\ all = Sample.first_page ++ Sample.trades 101 36
      /\ length all = 136%nat.
Proof.
  assert (Hfull : forall k p, (k < 1)%nat ->
                              full_page Sample.parse (snd (Sample.busy (0 + k) p))).
  { intros k p Hk. replace k with 0%nat by lia. exists Sample.first_page.
    split; [reflexivity |]. split; [| vm_compute; lia].
    apply well_formed_b_sound. vm_compute. reflexivity. }
  assert (Hshort : forall p, short_page Sample.parse (snd (Sample.busy (0 + 1) p))).
  { intros p. exists Sample.second_page.
    split; [reflexivity |]. split; [| vm_compute; lia].
    apply well_formed_b_sound. vm_compute. reflexivity. }
  split; [exact Hfull |]. split; [exact Hshort |].
  destruct (get_all_trades_stops_at_the_first_short_page
              Sample.repr Sample.parse Sample.busy Sample.me "BTC-PERP" None None
              Sample.dawn 1 Hfull Hshort) as [Hout Hdone].
  split; [exact Hout |]. split.
  - intros fuel Hfuel.
    destruct (Hdone fuel Hfuel) as [all [w' [new [pages [last [Hrun [Hcount _]]]]]]].
    exists all, w'. split; [exact Hrun | exact Hcount].
  - destruct (Hdone 5%nat ltac:(lia))
      as [all [w' [new [pages [last [Hrun [_ [Htrace [_ [_ [_ [_ [Hall _]]]]]]]]]]]]].
    pose proof (f_equal fst Hrun) as Hfst. pose proof (f_equal snd Hrun) as Hsnd.
    cbn [fst snd] in Hfst, Hsnd.
    assert (Hrec : all = Sample.first_page ++ Sample.trades 101 36).
    { assert (H : Done (Return all)
                  = Done (Return (Sample.first_page ++ Sample.trades 101 36)))
        by (rewrite <- Hfst; vm_compute; reflexivity).
      injection H as H. exact H. }
    exists all, w', new. split; [exact Hrun |]. split; [exact Htrace |].
    split; [| split; [exact Hall | split; [exact Hrec | rewrite Hrec; reflexivity]]].
    change (trace w' = new) in Htrace. rewrite <- Htrace, <- Hsnd. vm_compute. reflexivity.
Defined.

(** An empty window: one request, an empty result. *)
Example empty_window_takes_one_request :
  let run := get_all_trades Sample.repr Sample.parse Sample.quiet 1 Sample.me "BTC-PERP"
                            (Some 1596000000%Q) (Some 1596000000%Q) Sample.dawn in
  fst run = Done (Return []) /\ length (https (trace (snd run))) = 1%nat.
Proof. vm_compute. split; reflexivity. Qed.

(** A single page of 37 records ends the loop after one request. *)
Example short_page_takes_one_request :
  let run := get_all_trades Sample.repr Sample.parse
                            (fun _ _ => (0.001%Q, Sample.ok (VList (Sample.trades 1 37))))
                            3 Sample.me "BTC-PERP" None None Sample.dawn in
  fst run = Done (Return (Sample.trades 1 37)) /\ length (https (trace (snd run))) = 1%nat.
Proof. vm_compute. split; reflexivity. Qed.

(** C3 on the two overlapping pages: the last record of the second page is
    the first record of the first page again, and the result holds the 136
    distinct trades, not 137 records. *)
Lemma overlapping_pages_are_merged :
  let run := get_all_trades Sample.repr Sample.parse Sample.busy 5 Sample.me
                            "BTC-PERP" None None Sample.dawn in
  let all := Sample.first_page ++ Sample.trades 101 36 in
  (forall n p page, page_of (snd (Sample.busy n p)) = Return page -> NoDup (identifiers page))
  /\ run = (Done (Return all), snd run)
  /\ exists new,
      trace (snd run) = trace Sample.dawn ++ new
      /\ fetched new = [Sample.first_page; Sample.second_page]
      /\ NoDup (identifiers all)
      /\ length all = 136%nat
      /\ length all = size (list_to_set (identifiers (concat (fetched new))) : gset hkey).
Proof.
  intros run all.
  assert (Hpages : forall n p page, page_of (snd (Sample.busy n p)) = Return page ->
                                    NoDup (identifiers page)).
  { intros n p page Hpage.
    destruct n; injection Hpage as <-; apply (bool_decide_unpack _); vm_compute; exact I. }
  assert (Hrun : run = (Done (Return all), snd run)).
  { apply injective_projections; [vm_compute; reflexivity | reflexivity]. }
  split; [exact Hpages |]. split; [exact Hrun |].
  destruct (proj2 (trade_ids_stay_distinct Sample.repr Sample.parse Sample.busy)
              5%nat Sample.me "BTC-PERP" None None Sample.dawn all (snd run) Hpages Hrun)
    as [new [Htrace [Hnd [_ [_ Hsize]]]]].
  exists new. split; [exact Htrace |].
  split; [| split; [exact Hnd | split; [reflexivity | exact Hsize]]].
  change (trace (snd run) = new) in Htrace. rewrite <- Htrace. vm_compute. reflexivity.
Defined.

(** ** The further properties on sample runs *)

(** X3 on sample bodies: a JSON list, an object without [success], a
    refusal without [error] and with one that is not a string, an approval
    without [result]. *)
Lemma odd_bodies_raise :
  let body data := {| status_code := 200; decoded := Some data |} in
  _process_response (body (VList [])) Sample.dawn = (Done (Raise TypeError), Sample.dawn)
  /\ _process_response (body (VDict [("result", VInt 1)])) Sample.dawn
     = (Done (Raise (KeyError "success")), Sample.dawn)
  /\ _process_response (body (VDict [("success", VBool false)])) Sample.dawn
     = (Done (Raise (KeyError "error")), Sample.dawn)
  /\ _process_response (body (VDict [("success", VInt 0); ("error", VInt 42)])) Sample.dawn
     = (Done (Raise (Exception (VInt 42))), Sample.dawn)
  /\ _process_response (body (VDict [("success", VStr "yes")])) Sample.dawn
     = (Done (Raise (KeyError "result")), Sample.dawn).
Proof.
  intros body. refine (conj _ (conj _ (conj _ (conj _ _)))).
  - apply (proj1 (_process_response_on_odd_bodies (body (VList [])) Sample.dawn (VList [])
                    eq_refl)).
    intros kv. discriminate.
  - apply (proj1 (proj2 (_process_response_on_odd_bodies
                           (body (VDict [("result", VInt 1)])) Sample.dawn _ eq_refl)
                        _ eq_refl)).
    reflexivity.
  - apply (proj1 (proj2 (proj2 (_process_response_on_odd_bodies
                                  (body (VDict [("success", VBool false)])) Sample.dawn _
                                  eq_refl) _ eq_refl)) (VBool false) eq_refl eq_refl).
  - apply (proj1 (proj2 (proj2 (_process_response_on_odd_bodies
                                  (body (VDict [("success", VInt 0); ("error", VInt 42)]))
                                  Sample.dawn _ eq_refl) _ eq_refl))
             (VInt 0) eq_refl eq_refl).
  - apply (proj2 (proj2 (proj2 (_process_response_on_odd_bodies
                                  (body (VDict [("success", VStr "yes")])) Sample.dawn _
                                  eq_refl) _ eq_refl)) (VStr "yes") eq_refl eq_refl eq_refl).
Defined.

(** X5 on a sample call: the exchange refuses [list_markets] after a
    millisecond, and the caller has the exception a millisecond after the
    call, not fifty. *)
Lemma refused_call_returns_at_once :
  let func := _get Sample.repr Sample.refusing Sample.me "markets" None in
  fst (func Sample.dawn) = Done (Raise (Exception (VStr "Not logged in")))
  /\ list_markets Sample.repr Sample.refusing Sample.me Sample.dawn = func Sample.dawn
  /\ (now (snd (list_markets Sample.repr Sample.refusing Sample.me Sample.dawn))
      - now Sample.dawn == 0.001)%Q.
Proof.
  intros func.
  assert (H : fst (func Sample.dawn) = Done (Raise (Exception (VStr "Not logged in"))))
    by reflexivity.
  split; [exact H |].
  destruct (failed_call_is_not_padded func Sample.dawn _ H) as [Hrun [Hnow _]].
  split; [exact Hrun |]. unfold list_markets. fold func. rewrite Hnow.
  vm_compute. reflexivity.
Defined.

(** X6 on a sample call. *)
Lemma modify_order_with_price_and_size :
  xorb (is_none (Some "4711")) (is_none (@None string)) = true
  /\ modify_order Sample.repr Sample.quiet Sample.me (Some "4711") None
                  (Some 11000.5%Q) (Some 0.02%Q) None Sample.dawn
     = (Done (Raise (AssertionError "Must modify price or size of order")), Sample.dawn).
Proof.
  split; [reflexivity |].
  apply (modify_order_rejects_price_with_size Sample.repr Sample.quiet Sample.me
           (Some "4711") None 11000.5%Q 0.02%Q None Sample.dawn).
  reflexivity.
Defined.

(** X7 on two sample calls: a new price for an order known by its client
    id, and a call that changes nothing, which is sent all the same, with
    an empty object. *)
Lemma modify_order_sample_posts :
  (exists p took reply tail,
      trace (snd (modify_order Sample.repr Sample.quiet Sample.me None (Some "mine")
                               (Some 11000.5%Q) None None Sample.dawn))
      = trace Sample.dawn ++ Http (now Sample.dawn) p took reply :: tail
      /\ path_url p = "/api/orders/by_client_id/mine/modify"
      /\ body p = Some (Text.utf8 (dumps Sample.repr [("price", SFloat 11000.5)])))
  /\ (exists p took reply tail,
         trace (snd (modify_order Sample.repr Sample.quiet Sample.me (Some "4711") None
                                  None None None Sample.dawn))
         = trace Sample.dawn ++ Http (now Sample.dawn) p took reply :: tail
         /\ path_url p = "/api/orders/4711/modify"
         /\ body p = Some "{}").
Proof.
  split.
  - destruct (modify_order_posts_what_is_given Sample.repr Sample.quiet Sample.me
                None (Some "mine") (Some 11000.5%Q) None None Sample.dawn eq_refl eq_refl)
      as [_ [p [took [reply [tail [Htrace [_ [_ [Hpath Hbody]]]]]]]]].
    exists p, took, reply, tail. split; [exact Htrace |]. split; [exact Hpath | exact Hbody].
  - destruct (modify_order_posts_what_is_given Sample.repr Sample.quiet Sample.me
                (Some "4711") None None None None Sample.dawn eq_refl eq_refl)
      as [_ [p [took [reply [tail [Htrace [_ [_ [Hpath Hbody]]]]]]]]].
    exists p, took, reply, tail. split; [exact Htrace |]. split; [exact Hpath | exact Hbody].
Defined.

(** X8 on sample calls: no order type, an unknown one, and a stop with
    nothing but a trail value. *)
Lemma modify_conditional_order_sample_refusals :
  modify_conditional_order Sample.repr Sample.quiet Sample.me "4711" None
                           (Some 11000.5%Q) None None Sample.dawn
  = (Done (Raise (AssertionError "")), Sample.dawn)
  /\ modify_conditional_order Sample.repr Sample.quiet Sample.me "4711" (Some "limit")
                              (Some 11000.5%Q) None None Sample.dawn
     = (Done (Raise (AssertionError "")), Sample.dawn)
  /\ modify_conditional_order Sample.repr Sample.quiet Sample.me "4711" (Some "stop")
                              None (Some 0.05%Q) None Sample.dawn
     = (Done (Raise (AssertionError
                       "Other than trailingStop must modify triggerPrice or size of order")),
        Sample.dawn).
Proof.
  split; [| split].
  - apply (proj1 (modify_conditional_order_refusals Sample.repr Sample.quiet Sample.me "4711"
                    None (Some 11000.5%Q) None None Sample.dawn)).
    intros t Ht. discriminate Ht.
  - apply (proj1 (modify_conditional_order_refusals Sample.repr Sample.quiet Sample.me "4711"
                    (Some "limit") (Some 11000.5%Q) None None Sample.dawn)).
    intros t [= <-]. reflexivity.
  - apply (proj2 (proj2 (modify_conditional_order_refusals Sample.repr Sample.quiet Sample.me
                           "4711" (Some "stop") None (Some 0.05%Q) None Sample.dawn)));
      [left; reflexivity | reflexivity | reflexivity].
Defined.


(** X12 on a sample run: the connection is lost on the second request, and
    the hundred trades of the first page are lost with it. *)
Lemma dropped_connection_ends_the_aggregation :
  (forall k p, (k < 1)%nat -> full_page Sample.parse (snd (Sample.dropping (0 + k) p)))
  /\ (forall p, page_of (snd (Sample.dropping (0 + 1) p)) = Raise ConnectionError)
  /\ exists w' new,
      get_all_trades Sample.repr Sample.parse Sample.dropping 5 Sample.me
                     "BTC-PERP" None None Sample.dawn = (Done (Raise ConnectionError), w')
      /\ trace w' = trace Sample.dawn ++ new
      /\ length (https new) = 2%nat
      /\ back_to_back (now Sample.dawn) new.
Proof.
  assert (Hfull : forall k p, (k < 1)%nat ->
                              full_page Sample.parse (snd (Sample.dropping (0 + k) p))).
  { intros k p Hk. replace k with 0%nat by lia. exists Sample.first_page.
    split; [reflexivity |]. split; [| vm_compute; lia].
    apply well_formed_b_sound. vm_compute. reflexivity. }
  assert (Hfail : forall p, page_of (snd (Sample.dropping (0 + 1) p)) = Raise ConnectionError)
    by (intros p; reflexivity).
  split; [exact Hfull |]. split; [exact Hfail |].
  apply (get_all_trades_gives_up_on_a_failed_page
           Sample.repr Sample.parse Sample.dropping Sample.me "BTC-PERP" None None
           Sample.dawn 1 ConnectionError Hfull Hfail 5%nat).
  lia.
Defined.

(** X13 on a sample run: the second page is short and would end the
    aggregation, but one of its two times cannot be read. *)
Lemma garbled_time_ends_the_aggregation :
  (forall k p, (k < 1)%nat -> full_page Sample.parse (snd (Sample.garbling (0 + k) p)))
  /\ earliest Sample.parse Sample.garbled_page = Raise ValueError
  /\ exists w' new,
      get_all_trades Sample.repr Sample.parse Sample.garbling 5 Sample.me
                     "BTC-PERP" None None Sample.dawn = (Done (Raise ValueError), w')
      /\ trace w' = trace Sample.dawn ++ new
      /\ length (https new) = 2%nat
      /\ back_to_back (now Sample.dawn) new.
Proof.
  assert (Hfull : forall k p, (k < 1)%nat ->
                              full_page Sample.parse (snd (Sample.garbling (0 + k) p))).
  { intros k p Hk. replace k with 0%nat by lia. exists Sample.first_page.
    split; [reflexivity |]. split; [| vm_compute; lia].
    apply well_formed_b_sound. vm_compute. reflexivity. }
  assert (Hbad : earliest Sample.parse Sample.garbled_page = Raise ValueError)
    by (vm_compute; reflexivity).
  split; [exact Hfull |]. split; [exact Hbad |].
  apply (get_all_trades_gives_up_on_a_bad_time
           Sample.repr Sample.parse Sample.garbling Sample.me "BTC-PERP" None None
           Sample.dawn 1 ValueError Hfull); [| lia].
  intros p. exists Sample.garbled_page. split; [reflexivity |].
  split; [| split; [discriminate | exact Hbad]].
  repeat constructor; eexists; reflexivity.
Defined.

(** X14 on a sample exchange: seven turns against the exchange that always
    has a hundred trades more, seven requests, no result. *)
Lemma flooded_market_keeps_the_loop_busy :
  (forall n p, full_page Sample.parse (snd (Sample.flooded n p)))
  /\ exists w',
      get_all_trades Sample.repr Sample.parse Sample.flooded 7 Sample.me
                     "BTC-PERP" None None Sample.dawn = (Unfinished, w')
      /\ length (https (trace w')) = 7%nat.
Proof.
  assert (Hfull : forall n p, full_page Sample.parse (snd (Sample.flooded n p))).
  { intros n p. exists Sample.first_page.
    split; [reflexivity |]. split; [| vm_compute; lia].
    apply well_formed_b_sound. vm_compute. reflexivity. }
  split; [exact Hfull |].
  apply (get_all_trades_never_ends_on_full_pages
           Sample.repr Sample.parse Sample.flooded Sample.me "BTC-PERP" None None
           Hfull 7%nat Sample.dawn).
Defined.

(** X15 on the two overlapping pages: the 136 records returned are picked,
    in order, from the 137 records fetched. *)
Lemma merged_trades_follow_the_pages :
  let run := get_all_trades Sample.repr Sample.parse Sample.busy 5 Sample.me
                            "BTC-PERP" None None Sample.dawn in
  let all := Sample.first_page ++ Sample.trades 101 36 in
  run = (Done (Return all), snd run)
  /\ exists new,
      trace (snd run) = trace Sample.dawn ++ new
      /\ all `sublist_of` concat (fetched new)
      /\ (list_to_set (identifiers all) : gset hkey)
         = list_to_set (identifiers (concat (fetched new))).
Proof.
  intros run all.
  assert (Hrun : run = (Done (Return all), snd run)).
  { apply injective_projections; [vm_compute; reflexivity | reflexivity]. }
  split; [exact Hrun |].
  apply (returned_trades_follow_the_pages Sample.repr Sample.parse Sample.busy 5%nat
           Sample.me "BTC-PERP" None None Sample.dawn all (snd run) Hrun).
Defined.

(** X16 on the two overlapping pages: the second line counts the 37
    records of the page, of which 36 were new. *)
Lemma busy_market_progress_lines :
  let run := get_all_trades Sample.repr Sample.parse Sample.busy 5 Sample.me
                            "BTC-PERP" None None Sample.dawn in
  let all := Sample.first_page ++ Sample.trades 101 36 in
  run = (Done (Return all), snd run)
  /\ shown (trace (snd run)) = ["Adding 100 trades with end time None";
                                "Adding 37 trades with end time 1595999999.9999"]
  /\ exists new,
      trace (snd run) = trace Sample.dawn ++ new
      /\ shown new = progress_lines Sample.repr Sample.parse None (fetched new)
      /\ length (shown new) = length (https new).
Proof.
  intros run all.
  assert (Hrun : run = (Done (Return all), snd run)).
  { apply injective_projections; [vm_compute; reflexivity | reflexivity]. }
  split; [exact Hrun |]. split; [vm_compute; reflexivity |].
  apply (get_all_trades_reports_each_page Sample.repr Sample.parse Sample.busy 5%nat
           Sample.me "BTC-PERP" None None Sample.dawn all (snd run) Hrun).
Defined.

(** ** Test vectors *)

Example constants :
  length SHA256.primes = 64%nat
  /\ nth 0 SHA256.K 0 = 0x428a2f98 /\ nth 63 SHA256.K 0 = 0xc67178f2
  /\ nth 0 SHA256.H0 0 = 0x6a09e667 /\ nth 7 SHA256.H0 0 = 0x5be0cd19.
Proof. vm_compute. repeat split; reflexivity. Qed.

Example digest_abc :
  Text.hex (SHA256.digest (Text.octets "abc"))
  = "ba7816bf8f01cfea414140de5dae2223b00361a396177a9cb410ff61f20015ad".
Proof. vm_compute. reflexivity. Qed.

Example digest_two_blocks :
  Text.hex (SHA256.digest (Text.octets "abcdbcdecdefdefgefghfghighijhijkijkljklmklmnlmnomnopnopq"))
  = "248d6a61d20638b8e5c026930c3e6039a33ce45964ff2167f6ecedd419db06c1".
Proof. vm_compute. reflexivity. Qed.

(** RFC 4231, test case 2. *)
Example hmac_rfc4231_2 :
  SHA256.hmac_hexdigest "Jefe" "what do ya want for nothing?"
  = "5bdcc146bf60754e6a042426089575c75a003f089d2739839dec58b964ec3843".
Proof. vm_compute. reflexivity. Qed.

(** The encoders against the values Python gives. *)

Example urlencode_sample :
  _encode_params Sample.repr
    [("c d", SStr "x y&z"); ("e", SBool false); ("f", SFloat 1.5);
     ("g", SStr (String "233"%char "")); ("h", SNone)]
  = "c+d=x+y%26z&e=False&f=1.5&g=%C3%A9".
Proof. vm_compute. reflexivity. Qed.

Example dumps_sample :
  dumps Sample.repr [("k" +:+ String "233"%char (String "010"%char ""),
                      SStr ("v" +:+ String dquote (String bslash (String "127"%char
                                                   (String "009"%char "")))))]
  = Text.text ("{"%char :: dquote :: Text.chars "k\u00e9\n" ++ dquote :: Text.chars ": "
               ++ dquote :: "v"%char :: bslash :: dquote :: Text.chars "\\\u007f\t"
               ++ [dquote; "}"%char]).
Proof. vm_compute. reflexivity. Qed.

Example quote_sample :
  quote "/" (Text.utf8 ("my sub/1~" +:+ String "233"%char "")) = "my%20sub/1~%C3%A9".
Proof. vm_compute. reflexivity. Qed.

(** The headers of two sample requests, signed at 1596000000.25 with the
    secret [secret]; the signatures are those [hmac] computes in Python. *)
Example signed_post_sample :
  match trace (snd (_post Sample.repr Sample.quiet Sample.me "orders"
                          (Some [("a", SInt 1); ("b", SNone)]) Sample.dawn)) with
  | [Http _ p _ _] =>
      p_headers p !! "FTX-TS" = Some "1596000000250"
      /\ p_headers p !! "FTX-KEY" = Some "key"
      /\ p_headers p !! "FTX-SUBACCOUNT" = None
      /\ p_headers p !! "FTX-SIGN"
         = Some "946d443a05f0f5aef6265a635fee84eef136364b6e584557817c066d53b44b26"
  | _ => False
  end.
Proof. vm_compute. repeat split; reflexivity. Qed.

Example signed_get_sample :
  match trace (snd (get_orderbook Sample.repr Sample.quiet Sample.me "BTC-PERP" (Some 20)
                                  Sample.dawn)) with
  | [Http _ p _ _; Sleep _] =>
      path_url p = "/api/markets/BTC-PERP/orderbook?depth=20"
      /\ p_headers p !! "FTX-SIGN"
         = Some "37eaabbc4903043fd31cb60d1bb4a09f97c019cd04bfd1157134b98bb5f3242d"
  | _ => False
  end.
Proof. vm_compute. repeat split; reflexivity. Qed.

(** The parameters [{a: 1, b: None}] on a GET: [b] is not sent. *)
Example null_parameter_is_left_out_of_the_query :
  requested (trace (snd (_get Sample.repr Sample.quiet Sample.me "orders"
                              (Some [("a", SInt 1); ("b", SNone)]) Sample.dawn)))
  = ["/api/orders?a=1"].
Proof. vm_compute. reflexivity. Qed.

(** [place_order] without a client id sends [clientId] as [null].  The
    expected body is written with ['] for the double quote. *)
Example place_order_sends_null :
  match trace (snd (place_order Sample.repr Sample.quiet Sample.me "BTC-PERP" "buy"
                                11000.5 0.01 "limit" false false false None Sample.dawn)) with
  | [Http _ p _ _; Sleep _] =>
      body p
      = Some (Text.text
                (map (fun c => if Ascii.eqb c "'" then dquote else c)
                     (Text.chars "{'market': 'BTC-PERP', 'side': 'buy', 'price': 11000.5, "
                      ++ Text.chars "'size': 0.01, 'type': 'limit', 'reduceOnly': false, "
                      ++ Text.chars "'ioc': false, 'postOnly': false, 'clientId': null}")))
  | _ => False
  end.
Proof. vm_compute. reflexivity. Qed.

(** The page requests of the sample market: the second one asks for the
    trades up to the earliest instant of the first page, a hundred
    microseconds before noon, and [start_time] stays as the caller gave it. *)
Example second_page_is_asked_below_the_first :
  requested (trace (snd (get_all_trades Sample.repr Sample.parse Sample.busy 5 Sample.me
                                        "BTC-PERP" (Some 1595000000%Q) None Sample.dawn)))
  = ["/api/markets/BTC-PERP/trades?start_time=1595000000.0";
     "/api/markets/BTC-PERP/trades?end_time=1595999999.9999&start_time=1595000000.0"].
Proof. vm_compute. reflexivity. Qed.
